(** * Telemetry ingestion and live mirror of [iiot_system.py]

    A shallow embedding of the SQLite utilities ([db_init], [db_insert],
    [db_latest]), of the MQTT subscriber callback ([on_message]) and of the
    OPC UA polling loop ([run_opcua_server]), with the properties the
    specification states about them.

    Python values are an inductive type, exceptions are an explicit result
    type, and every function that touches the database file or a process's
    memory is a state-passing function in a small state-and-exception
    monad. *)

From Stdlib Require Import ZArith List Ascii String Bool Lia.
From Stdlib Require Import SpecFloat DecimalString Sorted.
Import ListNotations.

Local Open Scope string_scope.
Local Open Scope list_scope.
Local Open Scope Z_scope.

#[local] Set Warnings "-register-all".

(** ** Exceptions and the state-and-exception monad *)

(** The exception classes the modelled code can meet.  [sqlite3_Error]
    stands for the whole [sqlite3.Error] family (OperationalError,
    IntegrityError, ProgrammingError, InterfaceError): the program never
    tells them apart.  [OSError] stands for what a failed connection to
    the broker raises (ConnectionRefusedError and the like).  All are
    subclasses of [Exception] except [KeyboardInterrupt], which derives
    from [BaseException] only. *)
Inductive exn : Type :=
| UnicodeDecodeError
| UnicodeEncodeError
| OSError
| JSONDecodeError
| KeyError (key : string)
| TypeError
| ValueError
| OverflowError
| sqlite3_Error
| KeyboardInterrupt.

Definition is_Exception (e : exn) : bool :=
  match e with
  | KeyboardInterrupt => false
  | _ => true
  end.

Definition is_KeyboardInterrupt (e : exn) : bool :=
  match e with
  | KeyboardInterrupt => true
  | _ => false
  end.

Inductive result (A : Type) : Type :=
| Return (a : A)
| Raise (e : exn).

Arguments Return {A} a.
Arguments Raise {A} e.

(** A computation over a state [S]: the state survives a raised exception,
    as a Python object does. *)
Definition M (S A : Type) : Type := S -> result A * S.

Definition ret {S A} (a : A) : M S A := fun s => (Return a, s).

Definition raise {S A} (e : exn) : M S A := fun s => (Raise e, s).

Definition bind {S A B} (c : M S A) (k : A -> M S B) : M S B :=
  fun s =>
    match c s with
    | (Return a, s') => k a s'
    | (Raise e, s') => (Raise e, s')
    end.

Notation "x <- c ;; k" := (bind c (fun x => k))
  (at level 61, c at next level, right associativity).

(** A pure, possibly failing step inside a stateful computation. *)
Definition lift {S A} (r : result A) : M S A := fun s => (r, s).

(** [try: body  except <class> as e: handler(e)] where [catches] decides
    membership in the class. *)
Definition try_except {S A} (body : M S A) (catches : exn -> bool)
  (handler : exn -> M S A) : M S A :=
  fun s =>
    match body s with
    | (Raise e, s') => if catches e then handler e s' else (Raise e, s')
    | ok => ok
    end.

(** [try: body  finally: cleanup]: the cleanup runs on both exits, and the
    body's outcome is kept unless the cleanup itself raises. *)
Definition try_finally {S A} (body : M S A) (cleanup : M S unit) : M S A :=
  fun s =>
    let (r, s') := body s in
    match cleanup s' with
    | (Return _, s'') => (r, s'')
    | (Raise e, s'') => (Raise e, s'')
    end.

(** ** Python values *)

(** A Python [float] is an IEEE-754 binary64 value. *)
Definition float : Type := spec_float.
Definition prec : Z := 53.
Definition emax : Z := 1024.

Definition is_nan (f : float) : bool :=
  match f with
  | S754_nan => true
  | _ => false
  end.

(** Python's [==] on floats. *)
Definition float_eq (a b : float) : bool := SFeqb a b.

(** A Python [str] is kept as its UTF-8 bytes.  A [str] can hold a lone
    surrogate ([json.loads] makes one of "\ud800"), which UTF-8 cannot
    encode; it is kept as the three bytes ED A0..BF xx that the
    "surrogatepass" handler writes, a sequence no encodable text has. *)
Fixpoint utf8_encodable (s : string) : bool :=
  match s with
  | EmptyString => true
  | String c rest =>
      match rest with
      | EmptyString => true
      | String d _ =>
          if (N_of_ascii c =? 237)%N && (160 <=? N_of_ascii d)%N && (N_of_ascii d <=? 191)%N
          then false
          else utf8_encodable rest
      end
  end.

(** What [json.loads] can produce.  A [dict] is kept as its items; a key
    occurs once, as in the decoded mapping. *)
Inductive pyobj : Type :=
| PNone
| PBool (b : bool)
| PInt (z : Z)
| PFloat (f : float)
| PStr (s : string)
| PList (items : list pyobj)
| PDict (items : list (string * pyobj)).

Fixpoint dict_get (items : list (string * pyobj)) (key : string) : option pyobj :=
  match items with
  | [] => None
  | (k, v) :: rest => if String.eqb k key then Some v else dict_get rest key
  end.

(** [obj[key]] with a string key: [KeyError] on a mapping without the key,
    [TypeError] on everything that is not a mapping. *)
Definition getitem (obj : pyobj) (key : string) : result pyobj :=
  match obj with
  | PDict items =>
      match dict_get items key with
      | Some v => Return v
      | None => Raise (KeyError key)
      end
  | _ => Raise TypeError
  end.

(** [float(int)]: correctly rounded, [OverflowError] when the integer is
    beyond the largest double. *)
Definition float_of_int (z : Z) : result float :=
  match binary_normalize prec emax z 0 false with
  | S754_infinity _ => Raise OverflowError
  | f => Return f
  end.

(** The bytes an MQTT message carries, sorted by what
    [json.loads(msg.payload.decode("utf-8"))] makes of them. *)
Inductive mqtt_payload : Type :=
| BadUtf8
| BadJson
| JsonText (v : pyobj).

Definition json_loads_decode (p : mqtt_payload) : result pyobj :=
  match p with
  | BadUtf8 => Raise UnicodeDecodeError
  | BadJson => Raise JSONDecodeError
  | JsonText v => Return v
  end.

(** ** The SQLite file *)

(** One row of [telemetry]. *)
Record row : Type := mkRow {
  id : Z;
  ts : string;
  sensor : string;
  temperature : float;
  humidity : float
}.

(** The table and the [sqlite_sequence] counter that AUTOINCREMENT keeps
    for it.  [rows] is in insertion order. *)
Record table : Type := mkTable {
  rows : list row;
  seq : Z
}.

(** The database file: [None] while it holds no [telemetry] table. *)
Definition database : Type := option table.

Definition max_rowid : Z := 9223372036854775807.
Definition min_int64 : Z := -9223372036854775808.

Definition in_int64 (z : Z) : bool := (min_int64 <=? z) && (z <=? max_rowid).

(** SQLite storage classes that a bound [ts] or [sensor] can have. *)
Inductive sqlval : Type :=
| SqlNull
| SqlInteger (i : Z)
| SqlReal (f : float)
| SqlText (s : string).

(** [sqlite3_bind_double] binds NaN as NULL ([None] here). *)
Definition bind_double (f : float) : option float :=
  if is_nan f then None else Some f.

(** How the [sqlite3] module binds a Python object to a [?]: [bool] is an
    [int]; an [int] outside 64 bits raises [OverflowError]; a [str] is
    bound as its UTF-8 encoding, and one that has none raises
    [UnicodeEncodeError]; a list or a dict is not a supported type. *)
Definition bind_param (v : pyobj) : result sqlval :=
  match v with
  | PNone => Return SqlNull
  | PBool b => Return (SqlInteger (if b then 1 else 0))
  | PInt z => if in_int64 z then Return (SqlInteger z) else Raise OverflowError
  | PFloat f =>
      match bind_double f with
      | Some d => Return (SqlReal d)
      | None => Return SqlNull
      end
  | PStr s => if utf8_encodable s then Return (SqlText s) else Raise UnicodeEncodeError
  | PList _ => Raise sqlite3_Error
  | PDict _ => Raise sqlite3_Error
  end.

Definition text_of_int (i : Z) : string := NilZero.string_of_int (Z.to_int i).

(** A REAL column keeps a double as it is, except that a zero of either
    sign is written as the integer 0 and read back as [0.0]. *)
Definition real_affinity (f : float) : float :=
  match f with
  | S754_zero _ => S754_zero false
  | _ => f
  end.

(** [NOT NULL]: a NULL ([None]) violates the constraint. *)
Definition not_null {A} (v : option A) : result A :=
  match v with
  | Some a => Return a
  | None => Raise sqlite3_Error
  end.

(** The largest rowid present, 0 for an empty table. *)
Definition last_rowid (l : list row) : Z :=
  match l with
  | [] => 0
  | r :: rest => fold_right (fun x m => Z.max (id x) m) (id r) rest
  end.

(** What AUTOINCREMENT starts from: the larger of the largest rowid
    present (0 for an empty table) and the [sqlite_sequence] counter.  The
    new row gets one more. *)
Definition largest_rowid (t : table) : Z :=
  Z.max (last_rowid (rows t)) (seq t).

(** [ORDER BY id DESC]. *)
Fixpoint insert_desc (r : row) (sorted : list row) : list row :=
  match sorted with
  | [] => [r]
  | x :: rest => if id x <=? id r then r :: sorted else x :: insert_desc r rest
  end.

Definition order_by_id_desc (l : list row) : list row :=
  fold_right insert_desc [] l.

(** [LIMIT n]: a negative [n] sets no limit. *)
Definition limit {A} (n : Z) (l : list A) : list A :=
  if n <? 0 then l else firstn (Z.to_nat n) l.

(** What [SELECT ts, sensor, temperature, humidity] keeps of a row. *)
Definition tuple4 : Type := string * string * float * float.

Definition select_columns (r : row) : tuple4 :=
  (ts r, sensor r, temperature r, humidity r).

(** [sqlite3.connect(db_path)] and the commit: [io] tells whether the
    storage can be opened and written during this call. *)
Definition connect (io : bool) : M database unit :=
  fun db => if io then (Return tt, db) else (Raise sqlite3_Error, db).

(** A statement on [telemetry]: "no such table" when the file has none;
    a statement that raises is rolled back. *)
Definition on_telemetry {A} (stmt : M table A) : M database A :=
  fun db =>
    match db with
    | None => (Raise sqlite3_Error, db)
    | Some t =>
        match stmt t with
        | (Return a, t') => (Return a, Some t')
        | (Raise e, _) => (Raise e, db)
        end
    end.

(** [CREATE TABLE IF NOT EXISTS telemetry (...)]. *)
Definition create_table_if_not_exists : M database unit :=
  fun db =>
    match db with
    | None => (Return tt, Some (mkTable [] 0))
    | Some _ => (Return tt, db)
    end.

(** The next AUTOINCREMENT rowid; SQLITE_FULL once the largest rowid has
    been used. *)
Definition new_rowid : M table Z :=
  fun t =>
    if largest_rowid t <? max_rowid
    then (Return (largest_rowid t + 1), t)
    else (Raise sqlite3_Error, t).

Definition store_row (r : row) : M table unit :=
  fun t => (Return tt, mkTable (rows t ++ [r]) (id r)).

(** [SELECT ts, sensor, temperature, humidity FROM telemetry
     ORDER BY id DESC LIMIT ?] with [n] bound to the [?]. *)
Definition select_latest (n : Z) : M table (list tuple4) :=
  fun t =>
    if in_int64 n
    then (Return (map select_columns (limit n (order_by_id_desc (rows t)))), t)
    else (Raise OverflowError, t).

(** ** Logging *)

Inductive log_record : Type :=
| INFO_ingested (sensor : pyobj)
| EXCEPTION_on_message (e : exn)
| INFO_opcua_started
| INFO_opcua_stopping.

(** ** Process states *)

(** The subscriber process: the database file it writes and its log. *)
Record subscriber : Type := mkSubscriber {
  disk : database;
  journal : list log_record
}.

(** The OPC UA process: the three variables of the [IIoT] object, whether
    the server is started, and its log. *)
Record opcua : Type := mkOpcua {
  v_temp : float;
  v_hum : float;
  v_sensor : string;
  started : bool;
  opcua_log : list log_record
}.

(** What the environment does to the OPC UA process around one pass of its
    loop: the database file as the other processes left it, and whether it
    can be opened. *)
Record tick_env : Type := mkTick {
  tick_io : bool;
  tick_db : database
}.

(** One MQTT delivery: the payload, and whether the database file can be
    opened and written while the callback runs. *)
Record delivery : Type := mkDelivery {
  delivery_io : bool;
  delivery_payload : mqtt_payload
}.

Definition on_disk {A} (c : M database A) : M subscriber A :=
  fun s =>
    let (r, db) := c (disk s) in (r, mkSubscriber db (journal s)).

Definition log_subscriber (l : log_record) : M subscriber unit :=
  fun s => (Return tt, mkSubscriber (disk s) (l :: journal s)).

Definition log_opcua (l : log_record) : M opcua unit :=
  fun s => (Return tt,
            mkOpcua (v_temp s) (v_hum s) (v_sensor s) (started s) (l :: opcua_log s)).

Definition set_v_temp (f : float) : M opcua unit :=
  fun s => (Return tt, mkOpcua f (v_hum s) (v_sensor s) (started s) (opcua_log s)).

Definition set_v_hum (f : float) : M opcua unit :=
  fun s => (Return tt, mkOpcua (v_temp s) f (v_sensor s) (started s) (opcua_log s)).

Definition set_v_sensor (x : string) : M opcua unit :=
  fun s => (Return tt, mkOpcua (v_temp s) (v_hum s) x (started s) (opcua_log s)).

Definition server_start : M opcua unit :=
  fun s => (Return tt, mkOpcua (v_temp s) (v_hum s) (v_sensor s) true (opcua_log s)).

Definition server_stop : M opcua unit :=
  fun s => (Return tt, mkOpcua (v_temp s) (v_hum s) (v_sensor s) false (opcua_log s)).

(** A database call made by the OPC UA process on the file as it stands
    ([db]).  The file is shared with the other processes: what it holds
    at the next call is given by the schedule, not kept in this process's
    memory. *)
Definition on_file {A} (db : database) (c : M database A) : M opcua A :=
  fun s => (fst (c db), s).

(** ** Table invariants *)

(** The rowids grow along the insertion order: [id] is the primary key. *)
Definition ascending_ids (l : list row) : Prop :=
  StronglySorted (fun a b => id a < id b) l.

(** A [telemetry] table that only AUTOINCREMENT inserts have written. *)
Definition well_formed (t : table) : Prop :=
  ascending_ids (rows t) /\ 0 <= seq t.

Definition record_count (db : database) : nat :=
  match db with
  | Some t => List.length (rows t)
  | None => 0%nat
  end.

(** ** Two host conversions, on the inputs the examples use *)

Definition digit_value (c : Ascii.ascii) : option Z :=
  let n := Z.of_N (Ascii.N_of_ascii c) in
  if (48 <=? n) && (n <=? 57) then Some (n - 48) else None.

(** Reads [digits] or [digits.digits]: the digits as one integer, their
    number, and how many follow the point. *)
Fixpoint read_decimal (s : string) (after_point : bool) (m : Z) (digits frac : nat)
  : option (Z * nat * nat) :=
  match s with
  | EmptyString => Some (m, digits, frac)
  | String c rest =>
      if Ascii.eqb c "."%char
      then if after_point then None else read_decimal rest true m digits frac
      else
        match digit_value c with
        | Some d =>
            read_decimal rest after_point (10 * m + d) (S digits)
              (if after_point then S frac else frac)
        | None => None
        end
  end.

(** [float(str)] on plain decimals of at most 15 digits: the digits and
    the power of ten are both exact doubles, so one correctly rounded
    division gives the double [float] returns.  Python accepts many more
    strings (exponents, blanks, "nan", "inf"); this function rejects them,
    and is used only to run the examples. *)
Definition float_of_short_decimal (s : string) : option float :=
  let (negative, body) :=
    match s with
    | String "-"%char rest => (true, rest)
    | _ => (false, s)
    end in
  match read_decimal body false 0 0 0 with
  | Some (m, digits, frac) =>
      if (1 <=? digits)%nat && (digits <=? 15)%nat
      then Some (SFdiv prec emax
                   (binary_normalize prec emax (if negative then - m else m) 0 negative)
                   (binary_normalize prec emax (10 ^ Z.of_nat frac) 0 false))
      else None
  | None => None
  end.

(** The text SQLite writes for a zero or an infinity stored in a TEXT
    column.  The other reals get a decimal rendering that is not modelled:
    no example stores one as text. *)
Definition text_of_special_real (f : float) : string :=
  match f with
  | S754_zero _ => "0.0"
  | S754_infinity false => "Inf"
  | S754_infinity true => "-Inf"
  | _ => EmptyString
  end.

(** ** Data of the specification's scenarios *)

(** 24.5, 55.0 and 1.0 as doubles. *)
Definition float_24_5 : float := S754_finite false 6896136929411072 (-48).
Definition float_55 : float := S754_finite false 7740561859543040 (-47).
Definition float_1 : float := S754_finite false 4503599627370496 (-52).

(** [{"ts": "2024-01-01T00:00:00", "sensor": "sensor-001",
      "temperature": t, "humidity": h}]. *)
Definition scenario_payload (t h : pyobj) : pyobj :=
  PDict [("ts", PStr "2024-01-01T00:00:00"); ("sensor", PStr "sensor-001");
         ("temperature", t); ("humidity", h)].

(** The file as [db_init] creates it. *)
Definition fresh_table : table := mkTable [] 0.

Definition fresh_subscriber : subscriber := mkSubscriber (Some fresh_table) [].

Definition scenario_row : row :=
  mkRow 1 "2024-01-01T00:00:00" "sensor-001" float_24_5 float_55.

Definition later_row : row :=
  mkRow 2 "2024-01-01T00:00:02" "sensor-001" float_1 float_55.

Definition one_row_table : table := mkTable [scenario_row] 1.

Definition two_row_table : table := mkTable [scenario_row; later_row] 2.

(** [{"sensor": "x"}], the malformed payload of the specification. *)
Definition sensor_only_payload : pyobj := PDict [("sensor", PStr "x")].

(** The scenario's payload with one more key. *)
Definition payload_with_unit (t h : pyobj) : pyobj :=
  PDict [("unit", PStr "C"); ("ts", PStr "2024-01-01T00:00:00");
         ("sensor", PStr "sensor-001"); ("temperature", t); ("humidity", h)].

(** The OPC UA process once [server.start()] has returned. *)
Definition serving_initial : opcua :=
  mkOpcua (S754_zero false) (S754_zero false) "sensor-001" true [INFO_opcua_started].

Section Host.

(** Two conversions of the host libraries are taken as given: Python's
    [float(str)] ([None] for the strings it rejects with [ValueError]) and
    the text SQLite writes for a REAL stored in a TEXT column. *)
Variable float_of_str : string -> option float.
Variable real_to_text : float -> string.

(** [float(x)]. *)
Definition py_float (x : pyobj) : result float :=
  match x with
  | PFloat f => Return f
  | PInt z => float_of_int z
  | PBool b => float_of_int (if b then 1 else 0)
  | PStr s =>
      match float_of_str s with
      | Some f => Return f
      | None => Raise ValueError
      end
  | PNone => Raise TypeError
  | PList _ => Raise TypeError
  | PDict _ => Raise TypeError
  end.

(** TEXT affinity: numbers are stored as their text; [None] is NULL. *)
Definition text_affinity (v : sqlval) : option string :=
  match v with
  | SqlNull => None
  | SqlInteger i => Some (text_of_int i)
  | SqlReal f => Some (real_to_text f)
  | SqlText s => Some s
  end.

(** [INSERT INTO telemetry(ts, sensor, temperature, humidity)
     VALUES (?, ?, ?, ?)].  The caller passes whatever the payload held as
    [ts] and [sensor], and the results of [float(...)] as the other two. *)
Definition execute_insert (ts sensor : pyobj) (temperature humidity : float)
  : M table unit :=
  p_ts <- lift (bind_param ts) ;;
  p_sensor <- lift (bind_param sensor) ;;
  rowid <- new_rowid ;;
  c_ts <- lift (not_null (text_affinity p_ts)) ;;
  c_sensor <- lift (not_null (text_affinity p_sensor)) ;;
  c_temperature <- lift (not_null (option_map real_affinity (bind_double temperature))) ;;
  c_humidity <- lift (not_null (option_map real_affinity (bind_double humidity))) ;;
  store_row (mkRow rowid c_ts c_sensor c_temperature c_humidity).

(** ** SQLite utilities *)

Definition db_init (io : bool) : M database pyobj :=
  _ <- connect io ;;
  _ <- create_table_if_not_exists ;;
  ret PNone.

Definition db_insert (io : bool) (ts sensor : pyobj) (temperature humidity : float)
  : M database pyobj :=
  _ <- connect io ;;
  _ <- on_telemetry (execute_insert ts sensor temperature humidity) ;;
  ret PNone.

Definition db_latest (io : bool) (n : Z) : M database (list tuple4) :=
  _ <- connect io ;;
  on_telemetry (select_latest n).

(** ** MQTT subscriber *)

(** The [try] block of [on_message]. *)
Definition on_message_try (d : delivery) : M subscriber unit :=
  payload <- lift (json_loads_decode (delivery_payload d)) ;;
  ts <- lift (getitem payload "ts") ;;
  sensor <- lift (getitem payload "sensor") ;;
  raw_temperature <- lift (getitem payload "temperature") ;;
  temperature <- lift (py_float raw_temperature) ;;
  raw_humidity <- lift (getitem payload "humidity") ;;
  humidity <- lift (py_float raw_humidity) ;;
  _ <- on_disk (db_insert (delivery_io d) ts sensor temperature humidity) ;;
  log_subscriber (INFO_ingested sensor).

Definition on_message (d : delivery) : M subscriber unit :=
  try_except (on_message_try d) is_Exception
    (fun e => log_subscriber (EXCEPTION_on_message e)).

(** [client.loop_forever()] handing the deliveries received to the
    callback, one after the other; an exception leaving the callback would
    leave the loop. *)
Fixpoint loop_forever (ds : list delivery) : M subscriber unit :=
  match ds with
  | [] => ret tt
  | d :: rest => _ <- on_message d ;; loop_forever rest
  end.

(** [run_subscriber].  [connecting] is what building the client and
    [client.connect] do, [subscribing] what [client.subscribe] does: they
    return, or raise (no broker listening, a topic the client refuses),
    and no handler is around them. *)
Definition run_subscriber (io : bool) (connecting subscribing : result unit)
  (ds : list delivery) : M subscriber unit :=
  _ <- on_disk (db_init io) ;;
  _ <- lift connecting ;;
  _ <- lift subscribing ;;
  loop_forever ds.

(** ** OPC UA server *)

(** One pass of the [while True] body, up to the [time.sleep]. *)
Definition poll (e : tick_env) : M opcua unit :=
  rows <- on_file (tick_db e) (db_latest (tick_io e) 1) ;;
  match rows with
  | (_, sensor, temperature, humidity) :: _ =>
      t <- lift (py_float (PFloat temperature)) ;;
      _ <- set_v_temp t ;;
      h <- lift (py_float (PFloat humidity)) ;;
      _ <- set_v_hum h ;;
      set_v_sensor sensor
  | [] => ret tt
  end.

(** [while True]: the loop has no [break]; a run of it is a number of
    passes, one per element of the schedule, ended by the operator's
    interrupt during the [time.sleep] that follows the last one. *)
Fixpoint while_True (schedule : list tick_env) : M opcua unit :=
  match schedule with
  | [] => raise KeyboardInterrupt
  | e :: rest => _ <- poll e ;; while_True rest
  end.

(** The [try ... except KeyboardInterrupt ... finally] around the loop. *)
Definition serve (schedule : list tick_env) : M opcua unit :=
  try_finally
    (try_except (while_True schedule) is_KeyboardInterrupt
       (fun _ => log_opcua INFO_opcua_stopping))
    server_stop.

(** The address space as [run_opcua_server] sets it up. *)
Definition opcua_initial : opcua :=
  mkOpcua (S754_zero false) (S754_zero false) "sensor-001" false [].

Definition run_opcua_server (io : bool) (db : database) (schedule : list tick_env)
  : M opcua unit :=
  _ <- on_file db (db_init io) ;;
  _ <- server_start ;;
  _ <- log_opcua INFO_opcua_started ;;
  serve schedule.

(** ** Vocabulary of the properties *)

(** What one [db_insert] call is given. *)
Record reading : Type := mkReading {
  reading_io : bool;
  reading_ts : pyobj;
  reading_sensor : pyobj;
  reading_temperature : float;
  reading_humidity : float
}.

(** A sequence of appends on one file, none of which fails. *)
Fixpoint appends (rs : list reading) : M database unit :=
  match rs with
  | [] => ret tt
  | r :: rest =>
      _ <- db_insert (reading_io r) (reading_ts r) (reading_sensor r)
             (reading_temperature r) (reading_humidity r) ;;
      appends rest
  end.

(** The row holds what [execute_insert] stores for the reading. *)
Definition stored_as (r : reading) (x : row) : Prop :=
  (exists p, bind_param (reading_ts r) = Return p /\ text_affinity p = Some (ts x)) /\
  (exists p, bind_param (reading_sensor r) = Return p /\ text_affinity p = Some (sensor x)) /\
  is_nan (reading_temperature r) = false /\
  temperature x = real_affinity (reading_temperature r) /\
  is_nan (reading_humidity r) = false /\
  humidity x = real_affinity (reading_humidity r).

Definition raises {A} (r : result A) : Prop := exists e, r = Raise e.

(** A payload [on_message] cannot decode, or that lacks a required key,
    or whose [temperature] or [humidity] [float] refuses. *)
Definition malformed (p : mqtt_payload) : Prop :=
  raises (json_loads_decode p) \/
  exists v, p = JsonText v /\
    (raises (getitem v "ts") \/
     raises (getitem v "sensor") \/
     raises (getitem v "temperature") \/
     raises (getitem v "humidity") \/
     (exists x, getitem v "temperature" = Return x /\ raises (py_float x)) \/
     (exists x, getitem v "humidity" = Return x /\ raises (py_float x))).

(** A decoded payload with the four keys, whose [temperature] and
    [humidity] [float] accepts: [a], [b] are the values under [ts] and
    [sensor], [f], [g] the coerced numbers. *)
Definition coercible (v a b : pyobj) (f g : float) : Prop :=
  getitem v "ts" = Return a /\
  getitem v "sensor" = Return b /\
  (exists x, getitem v "temperature" = Return x /\ py_float x = Return f) /\
  (exists y, getitem v "humidity" = Return y /\ py_float y = Return g).

(** ... and which SQLite can store: [ts] and [sensor] bind to a non-null
    value with text [ca], [cb], and neither number is NaN. *)
Definition storable (a b : pyobj) (f g : float) (ca cb : string) : Prop :=
  (exists p, bind_param a = Return p /\ text_affinity p = Some ca) /\
  (exists p, bind_param b = Return p /\ text_affinity p = Some cb) /\
  is_nan f = false /\ is_nan g = false.

(** [ts] or [sensor] that the TEXT NOT NULL column refuses. *)
Definition unstorable_text (a : pyobj) : Prop :=
  raises (bind_param a) \/ bind_param a = Return SqlNull.

(** A decoded payload that lacks a required key, or whose [temperature]
    or [humidity] [float] refuses or turns into NaN, or whose [ts] or
    [sensor] the table refuses. *)
Definition absent_or_uncoercible (v : pyobj) : Prop :=
  raises (getitem v "ts") \/
  raises (getitem v "sensor") \/
  raises (getitem v "temperature") \/
  raises (getitem v "humidity") \/
  (exists x, getitem v "temperature" = Return x /\
             (raises (py_float x) \/ py_float x = Return S754_nan)) \/
  (exists y, getitem v "humidity" = Return y /\
             (raises (py_float y) \/ py_float y = Return S754_nan)) \/
  (exists a, getitem v "ts" = Return a /\ unstorable_text a) \/
  (exists b, getitem v "sensor" = Return b /\ unstorable_text b).

(** The table after one more row, with fields [ca], [cb] and the stored
    forms of [f] and [g]. *)
Definition inserted (t : table) (ca cb : string) (f g : float) : table :=
  mkTable
    (rows t ++ [mkRow (largest_rowid t + 1) ca cb (real_affinity f) (real_affinity g)])
    (largest_rowid t + 1).

(** The state [on_message] leaves after storing a row. *)
Definition ingested (st : subscriber) (t : table) (b : pyobj) (ca cb : string)
  (f g : float) : subscriber :=
  mkSubscriber (Some (inserted t ca cb f g)) (INFO_ingested b :: journal st).

(** The state [on_message] leaves after catching [e]. *)
Definition discarded (st : subscriber) (e : exn) : subscriber :=
  mkSubscriber (disk st) (EXCEPTION_on_message e :: journal st).

(** The four fields of a row, as the specification's record. *)
Definition fields (r : row) : tuple4 :=
  (ts r, sensor r, temperature r, humidity r).

(** The tuple is what the reading comes back as: the texts of its [ts]
    and [sensor] (a string as it is) and floats equal to its numbers. *)
Definition returned_for (r : reading) (x : tuple4) : Prop :=
  exists ca cb f' g',
    x = (ca, cb, f', g') /\
    (exists p, bind_param (reading_ts r) = Return p /\ text_affinity p = Some ca) /\
    (exists p, bind_param (reading_sensor r) = Return p /\ text_affinity p = Some cb) /\
    (forall a, reading_ts r = PStr a -> ca = a) /\
    (forall b, reading_sensor r = PStr b -> cb = b) /\
    float_eq f' (reading_temperature r) = true /\
    float_eq g' (reading_humidity r) = true.

(** The file can take one more row. *)
Definition writable (db : database) : Prop :=
  exists t, db = Some t /\ largest_rowid t < max_rowid.

(** ** Logger setup *)

(** A handler as [mk_logger] builds it: its stream and its format. *)
Record handler : Type := mkHandler {
  handler_stream : string;
  handler_format : string
}.

Record logger : Type := mkLogger {
  logger_level : Z;
  logger_handlers : list handler
}.

Definition logging_INFO : Z := 20.

(** The logging module keeps one logger per name, created on first use;
    the empty name and the name "root" both denote the root logger.
    [logger_key] is the name a logger is kept under. *)
Definition logger_key (name : string) : string :=
  match name with
  | EmptyString => "root"
  | _ => name
  end.

(** The loggers by key. *)
Definition loggers : Type := string -> logger.

(** [logging.getLogger(name)]. *)
Definition getLogger (reg : loggers) (name : string) : logger :=
  reg (logger_key name).

Definition set_logger (key : string) (l : logger) (reg : loggers) : loggers :=
  fun k => if String.eqb k key then l else reg k.

(** The handler [mk_logger] adds. *)
Definition stdout_handler : handler :=
  mkHandler "stdout" "%(asctime)s %(levelname)s %(message)s".

Definition mk_logger (name : string) (reg : loggers) : loggers :=
  let l := getLogger reg name in
  match logger_handlers l with
  | [] =>
      set_logger (logger_key name)
        (mkLogger logging_INFO (logger_handlers l ++ [stdout_handler]))
        reg
  | _ :: _ => reg
  end.

(** ** MQTT publisher *)

(** What [client.publish] returns: a tuple [(rc, mid)] in old clients, an
    object with a field [rc] in the others. *)
Inductive publish_result : Type :=
| AsTuple (rc mid : Z)
| AsInfo (rc mid : Z).

Definition MQTT_ERR_SUCCESS : Z := 0.

(** One call of [client.publish]: the topic, the mapping whose
    [json.dumps] is sent, the quality of service and the retain flag. *)
Record publication : Type := mkPublication {
  pub_topic : string;
  pub_mapping : pyobj;
  pub_qos : Z;
  pub_retain : bool
}.

Inductive publisher_record : Type :=
| INFO_publisher_started
| INFO_published (mapping : pyobj) (topic : string)
| ERROR_publish_failed (rc : Z)
| INFO_publisher_stopping.

(** The publisher process: the database file, the client's identifier,
    whether its network loop runs and whether it is connected, the
    [publish] calls made and the log. *)
Record publisher : Type := mkPublisher {
  pub_disk : database;
  client_id : string;
  network_loop : bool;
  connected : bool;
  outbox : list publication;
  publisher_log : list publisher_record
}.

(** What the environment gives one pass of the publisher's loop: the
    clock, the two rounded random draws, and what [client.publish] does:
    it returns a result, or raises (a topic or a payload the client
    refuses). *)
Record cadence : Type := mkCadence {
  utcnow : string;
  drawn_temperature : float;
  drawn_humidity : float;
  broker_answer : result publish_result
}.

Definition on_pub_disk {A} (c : M database A) : M publisher A :=
  fun s =>
    let (r, db) := c (pub_disk s) in
    (r, mkPublisher db (client_id s) (network_loop s) (connected s) (outbox s)
          (publisher_log s)).

Definition set_client_id (i : string) : M publisher unit :=
  fun s => (Return tt,
            mkPublisher (pub_disk s) i (network_loop s) (connected s) (outbox s)
              (publisher_log s)).

Definition set_connected (b : bool) : M publisher unit :=
  fun s => (Return tt,
            mkPublisher (pub_disk s) (client_id s) (network_loop s) b (outbox s)
              (publisher_log s)).

Definition set_network_loop (b : bool) : M publisher unit :=
  fun s => (Return tt,
            mkPublisher (pub_disk s) (client_id s) b (connected s) (outbox s)
              (publisher_log s)).

Definition log_publisher (l : publisher_record) : M publisher unit :=
  fun s => (Return tt,
            mkPublisher (pub_disk s) (client_id s) (network_loop s) (connected s)
              (outbox s) (l :: publisher_log s)).

(** [client.publish(topic, j, qos=..., retain=...)], doing what the
    environment says. *)
Definition client_publish (p : publication) (answer : result publish_result)
  : M publisher publish_result :=
  fun s =>
    match answer with
    | Return r =>
        (Return r,
         mkPublisher (pub_disk s) (client_id s) (network_loop s) (connected s)
           (p :: outbox s) (publisher_log s))
    | Raise e => (Raise e, s)
    end.

(** [result[0] if isinstance(result, tuple) else result.rc]. *)
Definition publish_status (r : publish_result) : Z :=
  match r with
  | AsTuple rc _ => rc
  | AsInfo rc _ => rc
  end.

(** The mapping of one reading. *)
Definition reading_mapping (sensor_name : string) (c : cadence) : pyobj :=
  PDict [("ts", PStr (utcnow c)); ("sensor", PStr sensor_name);
         ("temperature", PFloat (drawn_temperature c));
         ("humidity", PFloat (drawn_humidity c))].

(** One pass of the publisher's [while True] body, up to the
    [time.sleep]. *)
Definition publish_reading (topic sensor_name : string) (c : cadence) : M publisher unit :=
  let payload := reading_mapping sensor_name c in
  result <- client_publish (mkPublication topic payload 1 false) (broker_answer c) ;;
  let status := publish_status result in
  if status =? MQTT_ERR_SUCCESS
  then log_publisher (INFO_published payload topic)
  else log_publisher (ERROR_publish_failed status).

(** As for the OPC UA loop: one pass per element of the schedule, then the
    operator's interrupt.  [napping] is what [time.sleep(PUBLISH_INTERVAL)]
    does when it is not interrupted: it returns, or raises when the
    interval is negative, NaN or too large. *)
Fixpoint publisher_while_True (topic sensor_name : string) (napping : result unit)
  (schedule : list cadence) : M publisher unit :=
  match schedule with
  | [] => raise KeyboardInterrupt
  | c :: rest =>
      _ <- publish_reading topic sensor_name c ;;
      _ <- lift napping ;;
      publisher_while_True topic sensor_name napping rest
  end.

(** [run_publisher].  [connecting] is what building the client and
    [client.connect] do: they return, or raise (no broker listening),
    before the [try].  [topic] is [MQTT_TOPIC]. *)
Definition run_publisher (io : bool) (connecting : result unit)
  (topic sensor_name : string) (napping : result unit)
  (schedule : list cadence) : M publisher unit :=
  _ <- on_pub_disk (db_init io) ;;
  _ <- lift connecting ;;
  _ <- set_client_id ("pub-" ++ sensor_name)%string ;;
  _ <- set_connected true ;;
  _ <- set_network_loop true ;;
  _ <- log_publisher INFO_publisher_started ;;
  try_finally
    (try_except (publisher_while_True topic sensor_name napping schedule)
       is_KeyboardInterrupt
       (fun _ => log_publisher INFO_publisher_stopping))
    (_ <- set_network_loop false ;; set_connected false).

(** ** Streamlit dashboard *)

(** [r[0]], [r[2]] and [r[3]] of a fetched tuple. *)
Definition column_0 (r : tuple4) : string := let '(a, _, _, _) := r in a.
Definition column_2 (r : tuple4) : float := let '(_, _, c, _) := r in c.
Definition column_3 (r : tuple4) : float := let '(_, _, _, d) := r in d.

(** What [run_dashboard] computes: the three lists (the list of
    timestamps is built and not shown), and the fetched rows it writes
    under "Raw rows". *)
Record dashboard : Type := mkDashboard {
  series_ts : list string;
  series_temperature : list float;
  series_humidity : list float;
  raw_rows : list tuple4
}.

(** A value of the "Rows" slider: from 50 to 1000 in steps of 50. *)
Definition slider_rows (n : Z) : bool :=
  (50 <=? n) && (n <=? 1000) && (n mod 50 =? 0).

(** [run_dashboard] with [n] the slider's value; [io_init] and [io_read]
    tell whether the file can be opened by [db_init] and by [db_latest]. *)
Definition run_dashboard (io_init io_read : bool) (n : Z) : M database dashboard :=
  _ <- db_init io_init ;;
  data <- db_latest io_read n ;;
  ret (mkDashboard
         (rev (map column_0 data))
         (rev (map column_2 data))
         (rev (map column_3 data))
         data).

(** ** Vocabulary of the further properties *)

(** The last [k] elements of a list. *)
Definition last_n {A} (k : nat) (l : list A) : list A :=
  skipn (List.length l - k) l.

(** How many "Ingested row" lines a log holds. *)
Fixpoint ingested_lines (j : list log_record) : nat :=
  match j with
  | [] => 0
  | INFO_ingested _ :: rest => S (ingested_lines rest)
  | _ :: rest => ingested_lines rest
  end.

(** How many "Publish failed" lines a log holds. *)
Fixpoint failed_lines (j : list publisher_record) : nat :=
  match j with
  | [] => 0
  | ERROR_publish_failed _ :: rest => S (failed_lines rest)
  | _ :: rest => failed_lines rest
  end.

(** The pass's [client.publish] returns a result. *)
Definition publish_returns (c : cadence) : Prop :=
  exists r, broker_answer c = Return r.

(** How many elements of a schedule get a result other than success. *)
Fixpoint refused (schedule : list cadence) : nat :=
  match schedule with
  | [] => 0
  | c :: rest =>
      match broker_answer c with
      | Return r =>
          if publish_status r =? MQTT_ERR_SUCCESS then refused rest else S (refused rest)
      | Raise _ => refused rest
      end
  end.

(** The pass can read the file. *)
Definition read_returns (e : tick_env) : Prop :=
  exists l, fst (db_latest (tick_io e) 1 (tick_db e)) = Return l.

(** The pass reads the file and finds no row. *)
Definition read_empty (e : tick_env) : Prop :=
  fst (db_latest (tick_io e) 1 (tick_db e)) = Return [].

(** The [publish] call made for one element of the schedule. *)
Definition publication_of (topic sensor_name : string) (c : cadence) : publication :=
  mkPublication topic (reading_mapping sensor_name c) 1 false.

(** ** Data for the further properties *)

(** A reading of the scenario, with the broker client's answer. *)
Definition scenario_cadence (answer : publish_result) : cadence :=
  mkCadence "2024-01-01T00:00:00" float_24_5 float_55 (Return answer).

(** The logging module before any logger is configured: the root logger
    at level WARNING, the others at NOTSET, no handler anywhere. *)
Definition no_loggers : loggers :=
  fun k => if String.eqb k "root" then mkLogger 30 [] else mkLogger 0 [].

(** A delivery of the scenario's message, and one of the malformed one. *)
Definition scenario_delivery : delivery :=
  mkDelivery true (JsonText (scenario_payload (PFloat float_24_5) (PFloat float_55))).

Definition malformed_delivery : delivery :=
  mkDelivery true (JsonText sensor_only_payload).

(** A message whose [ts] is an integer and whose [sensor] is a boolean. *)
Definition mistyped_payload : pyobj :=
  PDict [("ts", PInt 1704067200); ("sensor", PBool true);
         ("temperature", PFloat float_24_5); ("humidity", PFloat float_55)].

(** * Properties *)

(** ** The monad *)

Lemma bind_Return_inv {S A B} (c : M S A) (k : A -> M S B) s b s' :
  bind c k s = (Return b, s') ->
  exists a s1, c s = (Return a, s1) /\ k a s1 = (Return b, s').
Proof.
  unfold bind. destruct (c s) as [[a | e] s1]; intros H.
  - exists a, s1. split; [reflexivity | exact H].
  - discriminate H.
Qed.

(** ** Floats *)

Lemma float_eq_refl f : is_nan f = false -> float_eq f f = true.
Proof.
  unfold float_eq, SFeqb. destruct f as [[|] | [|] | | [|] m e]; simpl;
    try reflexivity; try discriminate; intros _;
    rewrite Z.compare_refl, Pos.compare_cont_refl; reflexivity.
Qed.

Lemma real_affinity_eq f : is_nan f = false -> float_eq (real_affinity f) f = true.
Proof.
  destruct f as [[|] | s | | s m e]; simpl; intros H;
    try reflexivity; try discriminate; apply float_eq_refl; reflexivity.
Qed.

(** ** ORDER BY id DESC on rows in insertion order *)

Lemma fold_insert_desc_top r s l :
  Forall (fun x => id x < id r) l ->
  fold_right insert_desc (r :: s) l = r :: fold_right insert_desc s l.
Proof.
  induction 1 as [| a l Ha _ IH]; simpl.
  - reflexivity.
  - rewrite IH. simpl.
    destruct (id r <=? id a) eqn:E; [apply Z.leb_le in E; lia | reflexivity].
Qed.

Lemma order_by_id_desc_snoc l r :
  Forall (fun x => id x < id r) l ->
  order_by_id_desc (l ++ [r]) = r :: order_by_id_desc l.
Proof.
  intros H. unfold order_by_id_desc. rewrite fold_right_app. simpl.
  apply fold_insert_desc_top. exact H.
Qed.

Lemma ascending_snoc_inv l r :
  ascending_ids (l ++ [r]) ->
  ascending_ids l /\ Forall (fun x => id x < id r) l.
Proof.
  unfold ascending_ids. induction l as [| a l IH]; simpl; intros H.
  - split; constructor.
  - inversion H as [| ? ? Hs Hf]; subst.
    destruct (IH Hs) as [Hl Hr].
    apply Forall_app in Hf. destruct Hf as [Hf1 Hf2].
    split.
    + constructor; assumption.
    + constructor; [inversion Hf2; assumption | assumption].
Qed.

Lemma ascending_snoc l r :
  ascending_ids l -> Forall (fun x => id x < id r) l -> ascending_ids (l ++ [r]).
Proof.
  unfold ascending_ids. induction l as [| a l IH]; simpl; intros Hs Hf.
  - constructor; constructor.
  - inversion Hs as [| ? ? Hs' Ha]; subst.
    inversion Hf as [| ? ? Hra Hf']; subst.
    constructor.
    + apply IH; assumption.
    + apply Forall_app. split; [assumption | constructor; [assumption | constructor]].
Qed.

Lemma order_by_id_desc_app old news :
  ascending_ids news ->
  Forall (fun r => Forall (fun o => id o < id r) old) news ->
  order_by_id_desc (old ++ news) = rev news ++ order_by_id_desc old.
Proof.
  induction news as [| r news IH] using rev_ind; intros Hs Hf.
  - rewrite app_nil_r. reflexivity.
  - apply ascending_snoc_inv in Hs. destruct Hs as [Hs Hlt].
    apply Forall_app in Hf. destruct Hf as [Hf Hr].
    inversion Hr as [| ? ? Hold _]; subst.
    rewrite app_assoc, order_by_id_desc_snoc.
    + rewrite IH by assumption. rewrite rev_app_distr. reflexivity.
    + apply Forall_app. split; assumption.
Qed.

Lemma order_by_id_desc_ascending l :
  ascending_ids l -> order_by_id_desc l = rev l.
Proof.
  intros H. change l with ([] ++ l) at 1.
  rewrite order_by_id_desc_app.
  - simpl. apply app_nil_r.
  - exact H.
  - apply Forall_forall. intros; constructor.
Qed.

(** ** Rowids *)

Lemma fold_max_ge_base (l : list row) s :
  s <= fold_right (fun r m => Z.max (id r) m) s l.
Proof. induction l as [| a l IH]; simpl; lia. Qed.

Lemma fold_max_ge_ids (l : list row) s :
  Forall (fun x => id x <= fold_right (fun r m => Z.max (id r) m) s l) l.
Proof.
  induction l as [| a l IH]; simpl; constructor.
  - lia.
  - eapply Forall_impl; [| exact IH]. simpl. intros; lia.
Qed.

Lemma fold_max_le (l : list row) s b :
  s <= b -> Forall (fun x => id x <= b) l ->
  fold_right (fun r m => Z.max (id r) m) s l <= b.
Proof.
  intros Hs. induction 1 as [| a l Ha _ IH]; simpl; lia.
Qed.

Lemma last_rowid_ge_ids l : Forall (fun x => id x <= last_rowid l) l.
Proof.
  destruct l as [| r rest]; [constructor |]. simpl. constructor.
  - apply fold_max_ge_base.
  - apply fold_max_ge_ids.
Qed.

Lemma last_rowid_snoc l r :
  Forall (fun x => id x <= id r) l -> last_rowid (l ++ [r]) = id r.
Proof.
  intros H.
  assert (Hge : id r <= last_rowid (l ++ [r])).
  { pose proof (last_rowid_ge_ids (l ++ [r])) as Hall.
    apply Forall_app in Hall. destruct Hall as [_ Hr].
    inversion Hr; assumption. }
  assert (Hle : last_rowid (l ++ [r]) <= id r).
  { destruct l as [| a l]; simpl; [lia |].
    inversion H as [| ? ? Ha Hl]; subst.
    apply fold_max_le; [exact Ha |].
    apply Forall_app. split; [exact Hl | constructor; [lia | constructor]]. }
  lia.
Qed.

Lemma largest_rowid_ge_seq t : seq t <= largest_rowid t.
Proof. unfold largest_rowid. lia. Qed.

Lemma largest_rowid_ge_ids t : Forall (fun x => id x <= largest_rowid t) (rows t).
Proof.
  eapply Forall_impl; [| apply last_rowid_ge_ids].
  simpl. unfold largest_rowid. intros; lia.
Qed.

(** ** [db_insert] *)

Lemma not_null_inv {A} (v : option A) a : not_null v = Return a -> v = Some a.
Proof. destruct v; simpl; intros H; inversion H; reflexivity. Qed.

Lemma bind_double_inv f d : option_map real_affinity (bind_double f) = Some d ->
  is_nan f = false /\ d = real_affinity f.
Proof.
  unfold bind_double. destruct (is_nan f); simpl; intros H; inversion H.
  split; reflexivity.
Qed.

Lemma bind_param_raise a e : bind_param a = Raise e -> is_Exception e = true.
Proof.
  destruct a; simpl; intros H; try discriminate H; try (inversion H; reflexivity).
  - destruct (in_int64 z); inversion H; reflexivity.
  - destruct (bind_double f); discriminate H.
  - destruct (utf8_encodable s); inversion H; reflexivity.
Qed.

Lemma execute_insert_ok t a b f g ca cb :
  storable a b f g ca cb ->
  largest_rowid t < max_rowid ->
  execute_insert a b f g t = (Return tt, inserted t ca cb f g).
Proof.
  intros ((pa & Ha & Hca) & (pb & Hb & Hcb) & Hf & Hg) Hroom.
  unfold execute_insert, bind, lift, new_rowid, store_row, bind_double, inserted.
  rewrite Ha, Hb.
  apply Z.ltb_lt in Hroom. rewrite Hroom.
  rewrite Hca, Hcb, Hf, Hg. reflexivity.
Qed.

Lemma execute_insert_inv t a b f g u t' :
  execute_insert a b f g t = (Return u, t') ->
  exists ca cb,
    storable a b f g ca cb /\ largest_rowid t < max_rowid /\
    t' = inserted t ca cb f g.
Proof.
  unfold execute_insert, bind, lift, new_rowid, store_row.
  destruct (bind_param a) as [pa | ea] eqn:Ha; [| discriminate].
  destruct (bind_param b) as [pb | eb] eqn:Hb; [| discriminate].
  destruct (largest_rowid t <? max_rowid) eqn:Hroom; [| discriminate].
  destruct (not_null (text_affinity pa)) as [ca |] eqn:Hca; [| discriminate].
  destruct (not_null (text_affinity pb)) as [cb |] eqn:Hcb; [| discriminate].
  destruct (not_null (option_map real_affinity (bind_double f))) as [cf |] eqn:Hcf;
    [| discriminate].
  destruct (not_null (option_map real_affinity (bind_double g))) as [cg |] eqn:Hcg;
    [| discriminate].
  intros H. inversion H; subst.
  apply not_null_inv in Hca, Hcb.
  apply not_null_inv, bind_double_inv in Hcf. destruct Hcf as [Hf ->].
  apply not_null_inv, bind_double_inv in Hcg. destruct Hcg as [Hg ->].
  exists ca, cb. split; [| split].
  - repeat split; try assumption; eexists; split; eassumption.
  - apply Z.ltb_lt. exact Hroom.
  - reflexivity.
Qed.

Lemma execute_insert_raise t a b f g e t' :
  execute_insert a b f g t = (Raise e, t') -> is_Exception e = true.
Proof.
  unfold execute_insert, bind, lift, new_rowid, store_row, not_null.
  destruct (bind_param a) as [pa | ea] eqn:Ha.
  2:{ intros H; inversion H; subst. eapply bind_param_raise; exact Ha. }
  destruct (bind_param b) as [pb | eb] eqn:Hb.
  2:{ intros H; inversion H; subst. eapply bind_param_raise; exact Hb. }
  destruct (largest_rowid t <? max_rowid).
  2:{ intros H; inversion H; reflexivity. }
  destruct (text_affinity pa). 2:{ intros H; inversion H; reflexivity. }
  destruct (text_affinity pb). 2:{ intros H; inversion H; reflexivity. }
  destruct (option_map real_affinity (bind_double f)).
  2:{ intros H; inversion H; reflexivity. }
  destruct (option_map real_affinity (bind_double g)).
  2:{ intros H; inversion H; reflexivity. }
  intros H; discriminate H.
Qed.

Lemma db_insert_ok t a b f g ca cb :
  storable a b f g ca cb ->
  largest_rowid t < max_rowid ->
  db_insert true a b f g (Some t) = (Return PNone, Some (inserted t ca cb f g)).
Proof.
  intros Hs Hroom. unfold db_insert, bind, connect, on_telemetry, ret.
  rewrite (execute_insert_ok t a b f g ca cb Hs Hroom). reflexivity.
Qed.

Lemma db_insert_inv io a b f g db v db' :
  db_insert io a b f g db = (Return v, db') ->
  v = PNone /\ io = true /\
  exists t ca cb,
    db = Some t /\ storable a b f g ca cb /\ largest_rowid t < max_rowid /\
    db' = Some (inserted t ca cb f g).
Proof.
  unfold db_insert, bind, connect, on_telemetry, ret.
  destruct io; [| discriminate].
  destruct db as [t |]; [| discriminate].
  destruct (execute_insert a b f g t) as [[u | e] t'] eqn:Hx; [| discriminate].
  intros H; inversion H; subst.
  apply execute_insert_inv in Hx. destruct Hx as (ca & cb & Hs & Hroom & ->).
  split; [reflexivity | split; [reflexivity |]].
  exists t, ca, cb.
  split; [reflexivity | split; [exact Hs | split; [exact Hroom | reflexivity]]].
Qed.

Lemma db_insert_raise io a b f g db e db' :
  db_insert io a b f g db = (Raise e, db') ->
  db' = db /\ is_Exception e = true.
Proof.
  unfold db_insert, bind, connect, on_telemetry, ret.
  destruct io. 2:{ intros H; inversion H; split; reflexivity. }
  destruct db as [t |]. 2:{ intros H; inversion H; split; reflexivity. }
  destruct (execute_insert a b f g t) as [[u | e0] t'] eqn:Hx; [discriminate |].
  intros H; inversion H; subst. split; [reflexivity |].
  eapply execute_insert_raise. exact Hx.
Qed.

(** [well_formed] is an invariant of the file under [db_init] and
    [db_insert]. *)
Lemma inserted_well_formed t ca cb f g :
  well_formed t -> well_formed (inserted t ca cb f g).
Proof.
  intros [Hasc Hseq]. split.
  - unfold inserted. simpl. apply ascending_snoc; [exact Hasc |].
    eapply Forall_impl; [| apply largest_rowid_ge_ids]. simpl. intros; lia.
  - unfold inserted. simpl. pose proof (largest_rowid_ge_seq t). lia.
Qed.

Lemma db_init_well_formed io db r db' t' :
  (forall t, db = Some t -> well_formed t) ->
  db_init io db = (r, db') -> db' = Some t' -> well_formed t'.
Proof.
  intros Hwf H Ht'. subst db'.
  destruct io, db as [t |]; simpl in H; inversion H; subst.
  - apply Hwf. reflexivity.
  - split; [constructor | simpl; lia].
  - apply Hwf. reflexivity.
Qed.

Lemma db_insert_well_formed io a b f g db r db' t' :
  (forall t, db = Some t -> well_formed t) ->
  db_insert io a b f g db = (r, db') -> db' = Some t' -> well_formed t'.
Proof.
  intros Hwf H Ht'. subst db'. destruct r as [v | e].
  - apply db_insert_inv in H.
    destruct H as (_ & _ & t & ca & cb & -> & _ & _ & Heq).
    inversion Heq; subst. apply inserted_well_formed. apply Hwf. reflexivity.
  - apply db_insert_raise in H. destruct H as [<- _]. apply Hwf. reflexivity.
Qed.

(** ** [db_latest] *)

Lemma db_latest_eq t n :
  in_int64 n = true ->
  db_latest true n (Some t) =
  (Return (map select_columns (limit n (order_by_id_desc (rows t)))), Some t).
Proof.
  intros Hn. unfold db_latest, bind, connect, on_telemetry, select_latest.
  rewrite Hn. reflexivity.
Qed.

Lemma db_latest_unchanged io n db : snd (db_latest io n db) = db.
Proof.
  unfold db_latest, bind, connect, on_telemetry, select_latest.
  destruct io; [| reflexivity]. destruct db as [t |]; [| reflexivity].
  destruct (in_int64 n); reflexivity.
Qed.

Lemma db_latest_raise io n db e db' :
  db_latest io n db = (Raise e, db') -> is_Exception e = true.
Proof.
  unfold db_latest, bind, connect, on_telemetry, select_latest.
  destruct io. 2:{ intros H; inversion H; reflexivity. }
  destruct db as [t |]. 2:{ intros H; inversion H; reflexivity. }
  destruct (in_int64 n); intros H; inversion H; reflexivity.
Qed.

Lemma order_by_id_desc_inserted t ca cb f g :
  order_by_id_desc (rows (inserted t ca cb f g)) =
  mkRow (largest_rowid t + 1) ca cb (real_affinity f) (real_affinity g)
    :: order_by_id_desc (rows t).
Proof.
  unfold inserted. simpl. apply order_by_id_desc_snoc.
  eapply Forall_impl; [| apply largest_rowid_ge_ids]. simpl. intros; lia.
Qed.

Lemma largest_rowid_inserted t ca cb f g :
  largest_rowid (inserted t ca cb f g) = largest_rowid t + 1.
Proof.
  unfold inserted, largest_rowid at 1. cbn [rows seq].
  rewrite last_rowid_snoc; [simpl; lia |].
  eapply Forall_impl; [| apply largest_rowid_ge_ids]. simpl. intros; lia.
Qed.

(** ** [on_message] *)

Lemma getitem_raise v k e : getitem v k = Raise e -> is_Exception e = true.
Proof.
  destruct v; simpl; intros H; try (inversion H; reflexivity).
  destruct (dict_get items k); inversion H; reflexivity.
Qed.

Lemma float_of_int_raise z e : float_of_int z = Raise e -> is_Exception e = true.
Proof.
  unfold float_of_int.
  destruct (binary_normalize prec emax z 0 false); intros H; inversion H; reflexivity.
Qed.

Lemma py_float_raise x e : py_float x = Raise e -> is_Exception e = true.
Proof.
  destruct x; simpl; intros H; try (inversion H; reflexivity).
  - eapply float_of_int_raise; exact H.
  - eapply float_of_int_raise; exact H.
  - destruct (float_of_str s); inversion H; reflexivity.
Qed.

(** The [try] block either stores one row, or raises an [Exception]
    without having touched the process state. *)
Lemma on_message_try_cases d st :
  (exists v a b f g ca cb t,
      delivery_payload d = JsonText v /\ coercible v a b f g /\
      storable a b f g ca cb /\ delivery_io d = true /\
      disk st = Some t /\ largest_rowid t < max_rowid /\
      on_message_try d st = (Return tt, ingested st t b ca cb f g)) \/
  (exists e, is_Exception e = true /\ on_message_try d st = (Raise e, st)).
Proof.
  unfold on_message_try, bind, lift.
  destruct (json_loads_decode (delivery_payload d)) as [v | e] eqn:Hv.
  2:{ right. exists e. split; [| reflexivity].
      destruct (delivery_payload d); simpl in Hv; inversion Hv; reflexivity. }
  assert (Hp : delivery_payload d = JsonText v).
  { destruct (delivery_payload d); simpl in Hv; inversion Hv; reflexivity. }
  destruct (getitem v "ts") as [a | e] eqn:Ha.
  2:{ right. exists e. split; [eapply getitem_raise; exact Ha | reflexivity]. }
  destruct (getitem v "sensor") as [b | e] eqn:Hb.
  2:{ right. exists e. split; [eapply getitem_raise; exact Hb | reflexivity]. }
  destruct (getitem v "temperature") as [x | e] eqn:Hx.
  2:{ right. exists e. split; [eapply getitem_raise; exact Hx | reflexivity]. }
  destruct (py_float x) as [f | e] eqn:Hf.
  2:{ right. exists e. split; [eapply py_float_raise; exact Hf | reflexivity]. }
  destruct (getitem v "humidity") as [y | e] eqn:Hy.
  2:{ right. exists e. split; [eapply getitem_raise; exact Hy | reflexivity]. }
  destruct (py_float y) as [g | e] eqn:Hg.
  2:{ right. exists e. split; [eapply py_float_raise; exact Hg | reflexivity]. }
  unfold on_disk, log_subscriber.
  destruct (db_insert (delivery_io d) a b f g (disk st)) as [[u | e] db'] eqn:Hi.
  - left. apply db_insert_inv in Hi.
    destruct Hi as (_ & Hio & t & ca & cb & Hdisk & Hs & Hroom & ->).
    exists v, a, b, f, g, ca, cb, t.
    split; [exact Hp |].
    split; [split; [exact Ha | split; [exact Hb | split; eexists; split; eassumption]] |].
    split; [exact Hs |]. split; [exact Hio |]. split; [exact Hdisk |].
    split; [exact Hroom | reflexivity].
  - right. apply db_insert_raise in Hi. destruct Hi as [-> He].
    exists e. split; [exact He |]. destruct st; reflexivity.
Qed.

Lemma on_message_cases d st :
  (exists v a b f g ca cb t,
      delivery_payload d = JsonText v /\ coercible v a b f g /\
      storable a b f g ca cb /\ delivery_io d = true /\
      disk st = Some t /\ largest_rowid t < max_rowid /\
      on_message d st = (Return tt, ingested st t b ca cb f g)) \/
  (exists e, on_message d st = (Return tt, discarded st e)).
Proof.
  unfold on_message, try_except.
  destruct (on_message_try_cases d st)
    as [(v & a & b & f & g & ca & cb & t & Hp & Hc & Hs & Hio & Hd & Hr & Ht)
       | (e & He & Ht)]; rewrite Ht.
  - left. exists v, a, b, f, g, ca, cb, t. repeat (split; [assumption |]). reflexivity.
  - right. exists e. rewrite He. reflexivity.
Qed.

Lemma on_message_accept v a b f g ca cb t st :
  coercible v a b f g -> storable a b f g ca cb ->
  disk st = Some t -> largest_rowid t < max_rowid ->
  on_message (mkDelivery true (JsonText v)) st = (Return tt, ingested st t b ca cb f g).
Proof.
  intros (Ha & Hb & (x & Hx & Hf) & (y & Hy & Hg)) Hs Hd Hr.
  unfold on_message, try_except, on_message_try, bind, lift. simpl.
  rewrite Ha, Hb, Hx, Hf, Hy, Hg. unfold on_disk, log_subscriber. rewrite Hd.
  rewrite (db_insert_ok t a b f g ca cb Hs Hr). reflexivity.
Qed.

Lemma on_message_returns d st : fst (on_message d st) = Return tt.
Proof.
  destruct (on_message_cases d st)
    as [(v & a & b & f & g & ca & cb & t & _ & _ & _ & _ & _ & _ & H) | (e & H)];
    rewrite H; reflexivity.
Qed.

Lemma on_message_logs_once d st :
  List.length (journal (snd (on_message d st))) = S (List.length (journal st)).
Proof.
  destruct (on_message_cases d st)
    as [(v & a & b & f & g & ca & cb & t & _ & _ & _ & _ & _ & _ & H) | (e & H)];
    rewrite H; reflexivity.
Qed.

Lemma malformed_not_coercible v a b f g :
  malformed (JsonText v) -> coercible v a b f g -> False.
Proof.
  intros Hm (Ha & Hb & (x & Hx & Hf) & (y & Hy & Hg)).
  destruct Hm as [(e & He) | (v' & Hv & Hm)]; [discriminate He |].
  inversion Hv; subst v'.
  destruct Hm as [(e & He) | [(e & He) | [(e & He) | [(e & He) | [Hm | Hm]]]]].
  - rewrite Ha in He. discriminate He.
  - rewrite Hb in He. discriminate He.
  - rewrite Hx in He. discriminate He.
  - rewrite Hy in He. discriminate He.
  - destruct Hm as (x' & Hx' & e & He). rewrite Hx in Hx'. inversion Hx'; subst.
    rewrite Hf in He. discriminate He.
  - destruct Hm as (y' & Hy' & e & He). rewrite Hy in Hy'. inversion Hy'; subst.
    rewrite Hg in He. discriminate He.
Qed.

Lemma unstorable_text_not_storable a ca :
  unstorable_text a ->
  (exists p, bind_param a = Return p /\ text_affinity p = Some ca) -> False.
Proof.
  intros [(e & He) | Hn] (p & Hp & Hc).
  - rewrite Hp in He. discriminate He.
  - rewrite Hp in Hn. inversion Hn; subst. discriminate Hc.
Qed.

Lemma uncoercible_not_accepted v a b f g ca cb :
  absent_or_uncoercible v -> coercible v a b f g -> storable a b f g ca cb -> False.
Proof.
  intros Hu (Ha & Hb & (x & Hx & Hf) & (y & Hy & Hg)) (Hsa & Hsb & Hnf & Hng).
  destruct Hu as [(e & He) | [(e & He) | [(e & He) | [(e & He) | [Hu | [Hu | [Hu | Hu]]]]]]].
  - rewrite Ha in He. discriminate He.
  - rewrite Hb in He. discriminate He.
  - rewrite Hx in He. discriminate He.
  - rewrite Hy in He. discriminate He.
  - destruct Hu as (x' & Hx' & Hu). rewrite Hx in Hx'. inversion Hx'; subst.
    rewrite Hf in Hu. destruct Hu as [(e & He) | He]; [discriminate He |].
    inversion He; subst. discriminate Hnf.
  - destruct Hu as (y' & Hy' & Hu). rewrite Hy in Hy'. inversion Hy'; subst.
    rewrite Hg in Hu. destruct Hu as [(e & He) | He]; [discriminate He |].
    inversion He; subst. discriminate Hng.
  - destruct Hu as (a' & Ha' & Hu). rewrite Ha in Ha'. inversion Ha'; subst.
    eapply unstorable_text_not_storable; eassumption.
  - destruct Hu as (b' & Hb' & Hu). rewrite Hb in Hb'. inversion Hb'; subst.
    eapply unstorable_text_not_storable; eassumption.
Qed.

Lemma storable_text_dec a :
  unstorable_text a \/ exists p ca, bind_param a = Return p /\ text_affinity p = Some ca.
Proof.
  destruct (bind_param a) as [p | e] eqn:Hp.
  - destruct p; simpl.
    + left. right. exact Hp.
    + right. eexists _, _. split; reflexivity.
    + right. eexists _, _. split; reflexivity.
    + right. eexists _, _. split; reflexivity.
  - left. left. exists e. exact Hp.
Qed.

Lemma coerced_or_not v :
  absent_or_uncoercible v \/
  exists a b f g ca cb, coercible v a b f g /\ storable a b f g ca cb.
Proof.
  destruct (getitem v "ts") as [a | e] eqn:Ha.
  2:{ left. left. exists e. exact Ha. }
  destruct (getitem v "sensor") as [b | e] eqn:Hb.
  2:{ left. right. left. exists e. exact Hb. }
  destruct (getitem v "temperature") as [x | e] eqn:Hx.
  2:{ left. do 2 right. left. exists e. exact Hx. }
  destruct (getitem v "humidity") as [y | e] eqn:Hy.
  2:{ left. do 3 right. left. exists e. exact Hy. }
  destruct (py_float x) as [f | e] eqn:Hf.
  2:{ left. do 4 right. left. exists x. split; [exact Hx | left; exists e; exact Hf]. }
  destruct (py_float y) as [g | e] eqn:Hg.
  2:{ left. do 5 right. left. exists y. split; [exact Hy | left; exists e; exact Hg]. }
  destruct (is_nan f) eqn:Hnf.
  { left. do 4 right. left. exists x. split; [exact Hx | right].
    destruct f; try discriminate Hnf. exact Hf. }
  destruct (is_nan g) eqn:Hng.
  { left. do 5 right. left. exists y. split; [exact Hy | right].
    destruct g; try discriminate Hng. exact Hg. }
  destruct (storable_text_dec a) as [Hua | (pa & ca & Hpa & Hca)].
  { left. do 6 right. left. exists a. split; [exact Ha | exact Hua]. }
  destruct (storable_text_dec b) as [Hub | (pb & cb & Hpb & Hcb)].
  { left. do 7 right. exists b. split; [exact Hb | exact Hub]. }
  right. exists a, b, f, g, ca, cb. split.
  - split; [exact Ha | split; [exact Hb | split; eexists; split; eassumption]].
  - split; [eauto | split; [eauto | split; assumption]].
Qed.

Lemma on_message_same_fields io v v' st :
  getitem v "ts" = getitem v' "ts" ->
  getitem v "sensor" = getitem v' "sensor" ->
  getitem v "temperature" = getitem v' "temperature" ->
  getitem v "humidity" = getitem v' "humidity" ->
  on_message (mkDelivery io (JsonText v)) st = on_message (mkDelivery io (JsonText v')) st.
Proof.
  intros H1 H2 H3 H4.
  unfold on_message, try_except, on_message_try, bind, lift. simpl.
  rewrite H1, H2, H3, H4. reflexivity.
Qed.

Lemma db_latest_1_inserted t ca cb f g :
  db_latest true 1 (Some (inserted t ca cb f g)) =
  (Return [(ca, cb, real_affinity f, real_affinity g)], Some (inserted t ca cb f g)).
Proof.
  rewrite db_latest_eq by reflexivity.
  rewrite order_by_id_desc_inserted. reflexivity.
Qed.

(** ** The subscriber loop *)

Lemma loop_forever_total ds st :
  exists st',
    loop_forever ds st = (Return tt, st') /\
    List.length (journal st') = (List.length ds + List.length (journal st))%nat.
Proof.
  revert st. induction ds as [| d ds IH]; intros st; simpl.
  - exists st. split; reflexivity.
  - unfold bind.
    pose proof (on_message_returns d st) as Hr.
    pose proof (on_message_logs_once d st) as Hl.
    destruct (on_message d st) as [r st1]. simpl in Hr, Hl. subst r.
    destruct (IH st1) as (st' & Hrun & Hlen).
    exists st'. split; [exact Hrun |]. rewrite Hlen, Hl. lia.
Qed.

(** ** The OPC UA loop *)

Lemma poll_raise e st x d :
  db_latest (tick_io e) 1 (tick_db e) = (Raise x, d) ->
  poll e st = (Raise x, st).
Proof.
  intros H. unfold poll, bind, on_file. rewrite H. reflexivity.
Qed.

Lemma poll_outcome e st r st' :
  poll e st = (r, st') ->
  (exists x, r = Raise x /\ is_Exception x = true /\ st' = st /\
             fst (db_latest (tick_io e) 1 (tick_db e)) = Raise x) \/
  (r = Return tt /\ exists l, fst (db_latest (tick_io e) 1 (tick_db e)) = Return l).
Proof.
  unfold poll, bind, on_file.
  destruct (db_latest (tick_io e) 1 (tick_db e)) as [[l | x] d] eqn:Hl; simpl.
  - intros H. right. split; [| exists l; reflexivity].
    destruct l as [| [[[a s0] t0] h0] l'].
    + inversion H; reflexivity.
    + unfold lift, set_v_temp, set_v_hum, set_v_sensor in H. simpl in H.
      inversion H; reflexivity.
  - intros H. inversion H; subst. left. exists x.
    split; [reflexivity | split; [| split; reflexivity]].
    eapply db_latest_raise. exact Hl.
Qed.

Lemma while_True_raises schedule st :
  exists x st', while_True schedule st = (Raise x, st').
Proof.
  revert st. induction schedule as [| e rest IH]; intros st; simpl.
  - exists KeyboardInterrupt, st. reflexivity.
  - unfold bind. destruct (poll e st) as [[u | x] st1].
    + apply IH.
    + exists x, st1. reflexivity.
Qed.

Lemma while_True_failed_read pre e post st x d :
  db_latest (tick_io e) 1 (tick_db e) = (Raise x, d) ->
  exists y st',
    while_True (pre ++ e :: post) st = (Raise y, st') /\ is_Exception y = true /\
    while_True (pre ++ [e]) st = (Raise y, st').
Proof.
  intros Hx. revert st. induction pre as [| a pre IH]; intros st; simpl.
  - unfold bind. rewrite (poll_raise e st x d Hx).
    exists x, st. split; [reflexivity | split; [| reflexivity]].
    eapply db_latest_raise. exact Hx.
  - unfold bind. destruct (poll a st) as [[u | y] st1] eqn:Hp.
    + apply IH.
    + exists y, st1. split; [reflexivity | split; [| reflexivity]].
      apply poll_outcome in Hp.
      destruct Hp as [(y' & Hy & He & _) | (Hr & _)]; [| discriminate Hr].
      inversion Hy; subst. exact He.
Qed.

Lemma not_KeyboardInterrupt e : is_Exception e = true -> is_KeyboardInterrupt e = false.
Proof. destruct e; simpl; intros H; try reflexivity; discriminate H. Qed.

(** ** Sequences of appends *)

Lemma appends_inv rs : forall t db',
  appends rs (Some t) = (Return tt, db') ->
  exists t' news,
    db' = Some t' /\ rows t' = rows t ++ news /\
    List.length news = List.length rs /\
    ascending_ids news /\
    Forall (fun r => largest_rowid t < id r) news /\
    Forall2 stored_as rs news /\
    largest_rowid t' = largest_rowid t + Z.of_nat (List.length rs) /\
    largest_rowid t' <= Z.max (largest_rowid t) max_rowid.
Proof.
  induction rs as [| r rs IH]; intros t db' H.
  - simpl in H. unfold ret in H. inversion H; subst.
    exists t, []. rewrite app_nil_r. simpl.
    repeat split; try constructor; lia.
  - simpl in H. apply bind_Return_inv in H. destruct H as (v & db1 & Hi & H).
    apply db_insert_inv in Hi.
    destruct Hi as (_ & _ & t0 & ca & cb & Ht0 & Hs & Hroom & ->).
    inversion Ht0; subst t0. clear Ht0.
    destruct (IH _ _ H) as (t' & news & -> & Hrows & Hlen & Hasc & Hgt & Hst & Hl & Hmax).
    rewrite largest_rowid_inserted in *.
    set (r0 := mkRow (largest_rowid t + 1) ca cb
                 (real_affinity (reading_temperature r))
                 (real_affinity (reading_humidity r))) in *.
    exists t', (r0 :: news).
    split; [reflexivity |].
    split; [rewrite Hrows; unfold inserted; simpl; rewrite <- app_assoc; reflexivity |].
    split; [simpl; rewrite Hlen; reflexivity |].
    split.
    { constructor; [exact Hasc |].
      eapply Forall_impl; [| exact Hgt]. simpl. intros; lia. }
    split.
    { constructor; [simpl; lia |].
      eapply Forall_impl; [| exact Hgt]. simpl. intros; lia. }
    split.
    { constructor; [| exact Hst].
      destruct Hs as (Ha & Hb & Hf & Hg).
      unfold stored_as. simpl. repeat split; assumption. }
    split.
    { rewrite Hl. simpl List.length. lia. }
    lia.
Qed.

Lemma limit_length_prefix {A} (l1 l2 : list A) :
  limit (Z.of_nat (List.length l1)) (l1 ++ l2) = l1.
Proof.
  unfold limit. destruct (Z.of_nat (List.length l1) <? 0) eqn:E;
    [apply Z.ltb_lt in E; lia |].
  rewrite Nat2Z.id, firstn_app, firstn_all, Nat.sub_diag. simpl. apply app_nil_r.
Qed.

Lemma stored_text_of_str s p ca :
  bind_param (PStr s) = Return p -> text_affinity p = Some ca -> ca = s.
Proof.
  simpl. destruct (utf8_encodable s); intros H; inversion H; subst.
  simpl. intros H'. inversion H'. reflexivity.
Qed.

Lemma stored_as_returned r x : stored_as r x -> returned_for r (select_columns x).
Proof.
  intros ((pa & Hpa & Hca) & (pb & Hpb & Hcb) & Hf & Ht & Hg & Hh).
  exists (ts x), (sensor x), (temperature x), (humidity x).
  split; [reflexivity |].
  split; [exists pa; split; assumption |].
  split; [exists pb; split; assumption |].
  split; [intros a Ha; rewrite Ha in Hpa; eapply stored_text_of_str; eassumption |].
  split; [intros b Hb; rewrite Hb in Hpb; eapply stored_text_of_str; eassumption |].
  rewrite Ht, Hh. split; apply real_affinity_eq; assumption.
Qed.

(** * The specification's claims *)

(** C1, as amended.  For a payload with the four keys whose [ts] and
    [sensor] are strings that UTF-8 can encode and whose [temperature] and
    [humidity] [float] coerces to numbers other than NaN, and a file that
    can be written and has rowids left: [on_message] returns, and
    [db_latest(1)] then yields one tuple with the payload's [ts] and
    [sensor] and with floats equal to the coerced [temperature] and
    [humidity]. *)
Theorem on_message_then_latest v a b f g t st :
  coercible v (PStr a) (PStr b) f g ->
  utf8_encodable a = true -> utf8_encodable b = true ->
  is_nan f = false -> is_nan g = false ->
  disk st = Some t -> largest_rowid t < max_rowid ->
  exists st' f' g',
    on_message (mkDelivery true (JsonText v)) st = (Return tt, st') /\
    db_latest true 1 (disk st') = (Return [(a, b, f', g')], disk st') /\
    float_eq f' f = true /\ float_eq g' g = true.
Proof.
  intros Hc Ha Hb Hf Hg Hd Hr.
  assert (Hs : storable (PStr a) (PStr b) f g a b).
  { split; [exists (SqlText a); simpl; rewrite Ha; split; reflexivity |].
    split; [exists (SqlText b); simpl; rewrite Hb; split; reflexivity |].
    split; assumption. }
  exists (ingested st t (PStr b) a b f g), (real_affinity f), (real_affinity g).
  split; [apply (on_message_accept v (PStr a) (PStr b) f g a b t st); assumption |].
  split; [apply db_latest_1_inserted |].
  split; apply real_affinity_eq; assumption.
Qed.

(** C2.  After a sequence of N appends that all succeed on a well-formed
    table, the N new rows carry strictly increasing rowids in append
    order, all above the rowids already present, and [db_latest(N)]
    returns exactly the N appended records, newest first: for each
    reading the texts of its [ts] and [sensor] and floats equal to its
    numbers. *)
Theorem appends_monotonic rs t db' :
  well_formed t ->
  appends rs (Some t) = (Return tt, db') ->
  exists t' news tuples,
    db' = Some t' /\ rows t' = rows t ++ news /\
    Forall2 stored_as rs news /\
    ascending_ids news /\
    Forall (fun r => Forall (fun old => id old < id r) (rows t)) news /\
    Forall2 returned_for rs tuples /\
    db_latest true (Z.of_nat (List.length rs)) db' = (Return (rev tuples), db').
Proof.
  intros [_ Hseq] H.
  destruct (appends_inv rs t db' H)
    as (t' & news & -> & Hrows & Hlen & Hasc & Hgt & Hst & Hl & Hmax).
  exists t', news, (map select_columns news).
  assert (Hold : Forall (fun r => Forall (fun old => id old < id r) (rows t)) news).
  { eapply Forall_impl; [| exact Hgt]. simpl. intros r Hr.
    eapply Forall_impl; [| apply largest_rowid_ge_ids]. simpl. intros; lia. }
  repeat (split; [first [reflexivity | assumption] |]).
  split.
  { clear - Hst. induction Hst as [| r x rs news Hrx _ IH]; simpl; constructor;
      [| exact IH].
    apply stored_as_returned. exact Hrx. }
  pose proof (largest_rowid_ge_seq t) as Hge.
  rewrite db_latest_eq.
  - rewrite Hrows, (order_by_id_desc_app _ _ Hasc Hold).
    rewrite <- Hlen, <- length_rev, limit_length_prefix, map_rev. reflexivity.
  - unfold in_int64. apply andb_true_intro.
    split; apply Z.leb_le; unfold min_int64, max_rowid in *; lia.
Qed.

(** C3, as amended.  For an [n] that SQLite can bind as a 64-bit integer:
    [db_latest(n)] on an empty table returns the empty list; on a
    well-formed table of fewer than [n] rows it returns the records of all
    of them; and for [n >= 0] it returns the records of the [min(n, k)]
    most recently appended rows, newest first. *)
Theorem db_latest_newest_first :
  (forall n s, in_int64 n = true ->
     db_latest true n (Some (mkTable [] s)) = (Return [], Some (mkTable [] s))) /\
  (forall t n, well_formed t -> in_int64 n = true ->
     Z.of_nat (List.length (rows t)) < n ->
     db_latest true n (Some t) = (Return (rev (map fields (rows t))), Some t) /\
     List.length (rev (map fields (rows t))) = List.length (rows t)) /\
  (forall t n, well_formed t -> in_int64 n = true -> 0 <= n ->
     db_latest true n (Some t) =
       (Return (firstn (Z.to_nat n) (rev (map fields (rows t)))), Some t) /\
     List.length (firstn (Z.to_nat n) (rev (map fields (rows t)))) =
       Nat.min (Z.to_nat n) (List.length (rows t))).
Proof.
  split; [| split].
  - intros n s Hn. rewrite db_latest_eq by exact Hn. simpl.
    unfold limit. destruct (n <? 0); [reflexivity | rewrite firstn_nil; reflexivity].
  - intros t n [Hasc _] Hn Hk. rewrite db_latest_eq by exact Hn.
    rewrite (order_by_id_desc_ascending _ Hasc). unfold limit.
    destruct (n <? 0) eqn:E; [apply Z.ltb_lt in E; lia |].
    rewrite firstn_all2 by (rewrite length_rev; lia).
    rewrite map_rev. split; [reflexivity |].
    rewrite length_rev, length_map. reflexivity.
  - intros t n [Hasc _] Hn Hpos. rewrite db_latest_eq by exact Hn.
    rewrite (order_by_id_desc_ascending _ Hasc). unfold limit.
    destruct (n <? 0) eqn:E; [apply Z.ltb_lt in E; lia |].
    rewrite <- firstn_map, map_rev. split; [reflexivity |].
    rewrite length_firstn, length_rev, length_map. reflexivity.
Qed.

(** C4.  On a malformed payload (undecodable bytes, a missing key, a
    [temperature] or [humidity] that [float] refuses) [on_message] returns
    normally: the exception is caught and logged, and the database file,
    hence its record count, is as before. *)
Theorem on_message_malformed_discarded d st :
  malformed (delivery_payload d) ->
  exists e,
    on_message d st = (Return tt, discarded st e) /\
    disk (discarded st e) = disk st /\
    record_count (disk (snd (on_message d st))) = record_count (disk st).
Proof.
  intros Hm.
  destruct (on_message_cases d st)
    as [(v & a & b & f & g & ca & cb & t & Hp & Hc & _) | (e & H)].
  - exfalso. rewrite Hp in Hm. eapply malformed_not_coercible; eassumption.
  - exists e. rewrite H. split; [reflexivity | split; reflexivity].
Qed.

(** C5, as amended.  In the subscriber no exception leaves [on_message]:
    every delivery, also one whose database write fails, is handled and
    logged, and the loop goes through all of them.  In the OPC UA server
    a failed database read is not caught: it leaves the [while] loop, the
    server is stopped, the exception reaches the caller, and the passes
    that were to follow do not run. *)
Theorem loops_error_propagation :
  (forall ds st, exists st',
      loop_forever ds st = (Return tt, st') /\
      List.length (journal st') = (List.length ds + List.length (journal st))%nat) /\
  (forall pre e post st x d,
      db_latest (tick_io e) 1 (tick_db e) = (Raise x, d) ->
      exists y st',
        serve (pre ++ e :: post) st = (Raise y, st') /\
        is_Exception y = true /\ started st' = false /\
        serve (pre ++ [e]) st = (Raise y, st')).
Proof.
  split.
  - apply loop_forever_total.
  - intros pre e post st x d Hx.
    destruct (while_True_failed_read pre e post st x d Hx) as (y & st1 & H1 & Hy & H2).
    exists y, (mkOpcua (v_temp st1) (v_hum st1) (v_sensor st1) false (opcua_log st1)).
    unfold serve, try_finally, try_except. rewrite H1, H2.
    rewrite (not_KeyboardInterrupt y Hy). simpl.
    repeat split; assumption.
Qed.

(** C6, as amended.  A [db_insert] that returns has appended the record,
    under the next rowid, to the file it leaves: the row holds the texts
    of [ts] and [sensor] (a string as it is) and floats equal to the two
    numbers, [db_latest(1)] finds it, and the value returned is [None].  A
    [db_insert] that raises leaves the file as it was; and it raises when
    the storage cannot be opened or written. *)
Theorem db_insert_persists_returns_None io a b f g db :
  (forall v db', db_insert io a b f g db = (Return v, db') ->
     v = PNone /\
     exists t ca cb,
       db = Some t /\ storable a b f g ca cb /\
       (forall s, a = PStr s -> ca = s) /\ (forall s, b = PStr s -> cb = s) /\
       db' = Some (mkTable
                     (rows t ++ [mkRow (largest_rowid t + 1) ca cb
                                   (real_affinity f) (real_affinity g)])
                     (largest_rowid t + 1)) /\
       float_eq (real_affinity f) f = true /\ float_eq (real_affinity g) g = true /\
       db_latest true 1 db' =
         (Return [(ca, cb, real_affinity f, real_affinity g)], db')) /\
  (forall e db', db_insert io a b f g db = (Raise e, db') -> db' = db) /\
  (io = false -> db_insert io a b f g db = (Raise sqlite3_Error, db)).
Proof.
  split; [| split].
  - intros v db' H. apply db_insert_inv in H.
    destruct H as (-> & _ & t & ca & cb & -> & Hs & _ & ->).
    split; [reflexivity |].
    exists t, ca, cb.
    pose proof Hs as ((pa & Hpa & Hca) & (pb & Hpb & Hcb) & Hf & Hg).
    split; [reflexivity |]. split; [exact Hs |].
    split; [intros s ->; eapply stored_text_of_str; eassumption |].
    split; [intros s ->; eapply stored_text_of_str; eassumption |].
    split; [reflexivity |].
    split; [apply real_affinity_eq; exact Hf |].
    split; [apply real_affinity_eq; exact Hg |].
    apply db_latest_1_inserted.
  - intros e db' H. apply db_insert_raise in H. apply H.
  - intros ->. reflexivity.
Qed.

(** C7, as amended.  A payload that lacks a required key, or whose
    [temperature] or [humidity] [float] refuses or turns into NaN, or
    whose [ts] or [sensor] SQLite cannot bind as a non-null value (null,
    NaN, a list, a mapping, an integer beyond 64 bits, a string holding a
    lone surrogate), is logged as an exception and discarded, the file
    untouched.  Every other payload, whatever the JSON types of its
    values (a numeric string or a boolean as [temperature], a number as
    [ts]), is coerced and appended when the file can be written: the new
    row holds the texts of its [ts] and [sensor] and the coerced numbers. *)
Theorem on_message_uncoercible_discarded io v st :
  (absent_or_uncoercible v ->
   exists e, on_message (mkDelivery io (JsonText v)) st = (Return tt, discarded st e)) /\
  (~ absent_or_uncoercible v -> io = true -> writable (disk st) ->
   exists t a b f g ca cb,
     disk st = Some t /\
     coercible v a b f g /\ storable a b f g ca cb /\
     on_message (mkDelivery io (JsonText v)) st =
       (Return tt,
        mkSubscriber
          (Some (mkTable
                   (rows t ++ [mkRow (largest_rowid t + 1) ca cb
                                 (real_affinity f) (real_affinity g)])
                   (largest_rowid t + 1)))
          (INFO_ingested b :: journal st))).
Proof.
  split.
  - intros Hu.
    destruct (on_message_cases (mkDelivery io (JsonText v)) st)
      as [(v' & a & b & f & g & ca & cb & t & Hp & Hc & Hs & _) | (e & H)].
    + exfalso. simpl in Hp. inversion Hp; subst v'.
      eapply uncoercible_not_accepted; eassumption.
    + exists e. exact H.
  - intros Hn -> (t & Hd & Hr).
    destruct (coerced_or_not v) as [Hu | (a & b & f & g & ca & cb & Hc & Hs)];
      [contradiction |].
    exists t, a, b, f, g, ca, cb.
    split; [exact Hd |]. split; [exact Hc |]. split; [exact Hs |].
    apply (on_message_accept v a b f g ca cb t st); assumption.
Qed.

(** C8.  [db_init] on reachable storage never fails, whether the table
    exists or not; a second call, and any number of further calls, leave
    the file as the first call left it; the file then holds the table;
    and no call, successful or not, changes an existing table. *)
Theorem db_init_idempotent db :
  fst (db_init true db) = Return PNone /\
  db_init true (snd (db_init true db)) = (Return PNone, snd (db_init true db)) /\
  (forall n, Nat.iter (S n) (fun d => snd (db_init true d)) db = snd (db_init true db)) /\
  snd (db_init true db) <> None /\
  (forall io t, snd (db_init io (Some t)) = Some t).
Proof.
  split; [destruct db; reflexivity |].
  split; [destruct db; reflexivity |].
  split.
  - induction n as [| n IH].
    + reflexivity.
    + change (Nat.iter (S (S n)) (fun d => snd (db_init true d)) db)
        with (snd (db_init true (Nat.iter (S n) (fun d => snd (db_init true d)) db))).
      rewrite IH. destruct db; reflexivity.
  - split; [destruct db; discriminate |].
    intros [|] t; reflexivity.
Qed.

(** C9.  A pass of the polling loop whose [db_latest(1)] returns no row
    leaves the three variables, and the whole process state, as they were
    and raises nothing; a pass whose [db_latest(1)] returns a row writes
    that row's temperature, humidity and sensor into the three variables. *)
Theorem poll_mirrors_latest e st :
  (forall d, db_latest (tick_io e) 1 (tick_db e) = (Return [], d) ->
     poll e st = (Return tt, st)) /\
  (forall d a s t h rest,
     db_latest (tick_io e) 1 (tick_db e) = (Return ((a, s, t, h) :: rest), d) ->
     poll e st = (Return tt, mkOpcua t h s (started st) (opcua_log st))).
Proof.
  split.
  - intros d H. unfold poll, bind, on_file. rewrite H. reflexivity.
  - intros d a s t h rest H. unfold poll, bind, on_file. rewrite H. reflexivity.
Qed.

(** C10, as amended.  [on_message] reads a mapping through its four
    required keys only: with any further keys it does exactly what it does
    on the mapping cut down to the four.  When the four values can be
    coerced and stored (the numbers are not NaN) and the file can be
    written, exactly one row is appended, made of the four fields and its
    rowid. *)
Theorem on_message_ignores_extra_keys io items a b x y st :
  dict_get items "ts" = Some a ->
  dict_get items "sensor" = Some b ->
  dict_get items "temperature" = Some x ->
  dict_get items "humidity" = Some y ->
  on_message (mkDelivery io (JsonText (PDict items))) st =
  on_message
    (mkDelivery io
       (JsonText (PDict [("ts", a); ("sensor", b); ("temperature", x); ("humidity", y)])))
    st /\
  (forall f g ca cb t,
     py_float x = Return f -> py_float y = Return g ->
     storable a b f g ca cb ->
     io = true -> disk st = Some t -> largest_rowid t < max_rowid ->
     exists r st',
       on_message (mkDelivery io (JsonText (PDict items))) st = (Return tt, st') /\
       disk st' = Some (mkTable (rows t ++ [r]) (id r)) /\
       select_columns r = (ca, cb, real_affinity f, real_affinity g) /\
       record_count (disk st') = S (record_count (disk st))).
Proof.
  intros Ha Hb Hx Hy.
  assert (Hg : forall k w, dict_get items k = Some w ->
                           getitem (PDict items) k = Return w).
  { intros k w H. simpl. rewrite H. reflexivity. }
  split.
  - apply on_message_same_fields; simpl; rewrite ?Ha, ?Hb, ?Hx, ?Hy; reflexivity.
  - intros f g ca cb t Hf Hgg Hs -> Hd Hr.
    exists (mkRow (largest_rowid t + 1) ca cb (real_affinity f) (real_affinity g)).
    exists (ingested st t b ca cb f g).
    split.
    + apply (on_message_accept _ a b f g ca cb t st); try assumption.
      split; [apply Hg; exact Ha |]. split; [apply Hg; exact Hb |].
      split; [exists x | exists y]; split; auto.
    + split; [reflexivity |]. split; [reflexivity |].
      rewrite Hd. simpl. rewrite length_app. simpl. lia.
Qed.

(** * Further properties of the code *)

(** ** The SQLite utilities *)

Lemma insert_desc_length r l :
  List.length (insert_desc r l) = S (List.length l).
Proof.
  induction l as [| x l IH]; simpl; [reflexivity |].
  destruct (id x <=? id r); simpl; [reflexivity | rewrite IH; reflexivity].
Qed.

Lemma order_by_id_desc_length l :
  List.length (order_by_id_desc l) = List.length l.
Proof.
  induction l as [| x l IH]; simpl; [reflexivity |].
  rewrite insert_desc_length, IH. reflexivity.
Qed.

Lemma ascending_ids_NoDup l : ascending_ids l -> NoDup (map id l).
Proof.
  induction 1 as [| a l _ IH Hlt]; simpl; constructor; [| exact IH].
  intros Hin. apply in_map_iff in Hin. destruct Hin as (x & Hx & Hin).
  rewrite Forall_forall in Hlt. specialize (Hlt x Hin). lia.
Qed.

(** X1.  [db_insert] returns exactly when the storage is reachable, the
    table exists and has a rowid left, [ts] and [sensor] bind to non-null
    values and neither number is NaN. *)
Theorem db_insert_returns_iff io a b f g db :
  (exists v db', db_insert io a b f g db = (Return v, db')) <->
  (io = true /\ writable db /\ exists ca cb, storable a b f g ca cb).
Proof.
  split.
  - intros (v & db' & H). apply db_insert_inv in H.
    destruct H as (_ & Hio & t & ca & cb & Hdb & Hs & Hroom & _).
    split; [exact Hio |]. split; [exists t; split; assumption |].
    exists ca, cb. exact Hs.
  - intros (-> & (t & -> & Hroom) & ca & cb & Hs).
    exists PNone, (Some (inserted t ca cb f g)). apply db_insert_ok; assumption.
Qed.

(** X2.  A reading whose temperature or humidity is NaN is never stored:
    [db_insert] raises and leaves the file as it was. *)
Theorem db_insert_nan_rejected io a b f g db :
  is_nan f || is_nan g = true ->
  exists e, db_insert io a b f g db = (Raise e, db).
Proof.
  intros Hnan.
  destruct (db_insert io a b f g db) as [[v | e] db'] eqn:H.
  - exfalso. apply db_insert_inv in H.
    destruct H as (_ & _ & t & ca & cb & _ & (_ & _ & Hf & Hg) & _).
    rewrite Hf, Hg in Hnan. discriminate Hnan.
  - exists e. apply db_insert_raise in H. destruct H as [-> _]. reflexivity.
Qed.

(** X3.  Whatever its outcome, [db_insert] keeps every row of the table,
    in place and unchanged, and adds at most one. *)
Theorem db_insert_append_only io a b f g t :
  exists t' added,
    snd (db_insert io a b f g (Some t)) = Some t' /\
    rows t' = rows t ++ added /\
    (List.length added <= 1)%nat.
Proof.
  destruct (db_insert io a b f g (Some t)) as [[v | e] db'] eqn:H.
  - apply db_insert_inv in H.
    destruct H as (_ & _ & t0 & ca & cb & Ht0 & _ & _ & ->).
    inversion Ht0; subst t0.
    eexists _, _. split; [reflexivity |]. split; [reflexivity |]. simpl. lia.
  - apply db_insert_raise in H. destruct H as [-> _].
    exists t, []. split; [reflexivity |]. split; [symmetry; apply app_nil_r |].
    simpl. lia.
Qed.

(** X4.  [db_latest] outside the counts.  A negative [n] lifts the limit:
    the records of all the rows come back, newest first.  An [n] beyond
    64 bits raises [OverflowError], also on an empty table; but a missing
    table or unreachable storage is reported first. *)
Theorem db_latest_outside_counts t n :
  (n < 0 -> in_int64 n = true -> well_formed t ->
   db_latest true n (Some t) = (Return (rev (map fields (rows t))), Some t) /\
   List.length (rev (map fields (rows t))) = List.length (rows t)) /\
  (in_int64 n = false ->
   db_latest true n (Some t) = (Raise OverflowError, Some t) /\
   db_latest true n None = (Raise sqlite3_Error, None) /\
   db_latest false n (Some t) = (Raise sqlite3_Error, Some t)).
Proof.
  split.
  - intros Hneg Hn [Hasc _]. rewrite db_latest_eq by exact Hn.
    rewrite (order_by_id_desc_ascending _ Hasc). unfold limit.
    apply Z.ltb_lt in Hneg. rewrite Hneg, map_rev.
    split; [reflexivity |]. rewrite length_rev, length_map. reflexivity.
  - intros Hn. split; [| split; reflexivity].
    unfold db_latest, bind, connect, on_telemetry, select_latest.
    rewrite Hn. reflexivity.
Qed.

(** X5.  Windows are nested: for [0 <= n <= m], [db_latest(n)] is a prefix
    of [db_latest(m)], and it holds [min(n, count)] rows. *)
Theorem db_latest_prefix t n m :
  0 <= n -> n <= m -> in_int64 m = true ->
  exists shorter rest,
    db_latest true n (Some t) = (Return shorter, Some t) /\
    db_latest true m (Some t) = (Return (shorter ++ rest), Some t) /\
    List.length shorter = Nat.min (Z.to_nat n) (List.length (rows t)).
Proof.
  intros Hn Hnm Hm.
  assert (Hn64 : in_int64 n = true).
  { unfold in_int64 in *. apply andb_true_iff in Hm. destruct Hm as [_ Hm].
    apply Z.leb_le in Hm. apply andb_true_intro.
    split; apply Z.leb_le; unfold min_int64 in *; lia. }
  rewrite !db_latest_eq by assumption. unfold limit.
  destruct (n <? 0) eqn:En; [apply Z.ltb_lt in En; lia |].
  destruct (m <? 0) eqn:Em; [apply Z.ltb_lt in Em; lia |].
  set (l := order_by_id_desc (rows t)).
  exists (map select_columns (firstn (Z.to_nat n) l)).
  exists (map select_columns (skipn (Z.to_nat n) (firstn (Z.to_nat m) l))).
  split; [reflexivity |]. split.
  - rewrite <- map_app. do 2 f_equal.
    rewrite <- (firstn_skipn (Z.to_nat n) (firstn (Z.to_nat m) l)) at 1.
    f_equal. rewrite firstn_firstn, Nat.min_l by lia. reflexivity.
  - rewrite length_map, length_firstn. unfold l.
    rewrite order_by_id_desc_length. reflexivity.
Qed.

(** X6.  An append shifts the window by one: after a [db_insert] that
    succeeds, [db_latest(n + 1)] is the new record followed by what
    [db_latest(n)] returned before. *)
Theorem db_latest_after_insert t a b f g ca cb n :
  storable a b f g ca cb -> largest_rowid t < max_rowid ->
  0 <= n -> in_int64 (n + 1) = true ->
  exists db' older,
    db_insert true a b f g (Some t) = (Return PNone, db') /\
    db_latest true n (Some t) = (Return older, Some t) /\
    db_latest true (n + 1) db' =
      (Return ((ca, cb, real_affinity f, real_affinity g) :: older), db').
Proof.
  intros Hs Hroom Hn Hn1.
  assert (Hn64 : in_int64 n = true).
  { unfold in_int64 in *. apply andb_true_iff in Hn1. destruct Hn1 as [_ Hm].
    apply Z.leb_le in Hm. apply andb_true_intro.
    split; apply Z.leb_le; unfold min_int64 in *; lia. }
  exists (Some (inserted t ca cb f g)).
  exists (map select_columns (limit n (order_by_id_desc (rows t)))).
  split; [apply db_insert_ok; assumption |].
  split; [apply db_latest_eq; exact Hn64 |].
  rewrite db_latest_eq by exact Hn1. rewrite order_by_id_desc_inserted.
  unfold limit.
  destruct (n <? 0) eqn:En; [apply Z.ltb_lt in En; lia |].
  destruct (n + 1 <? 0) eqn:En1; [apply Z.ltb_lt in En1; lia |].
  replace (Z.to_nat (n + 1)) with (S (Z.to_nat n)) by lia. reflexivity.
Qed.

(** X7.  On a file without the table [db_insert] raises and creates
    nothing; after [db_init] the same call stores the row under rowid 1. *)
Theorem first_insert_needs_db_init a b f g ca cb :
  storable a b f g ca cb ->
  db_insert true a b f g None = (Raise sqlite3_Error, None) /\
  (_ <- db_init true ;; db_insert true a b f g) None =
    (Return PNone,
     Some (mkTable [mkRow 1 ca cb (real_affinity f) (real_affinity g)] 1)).
Proof.
  intros Hs. split; [reflexivity |].
  unfold bind at 1. simpl.
  rewrite (db_insert_ok (mkTable [] 0) a b f g ca cb Hs); reflexivity.
Qed.

(** ** The subscriber *)

Lemma on_message_effect d st :
  fst (on_message d st) = Return tt /\
  ((exists t b ca cb f g,
       disk st = Some t /\ largest_rowid t < max_rowid /\
       snd (on_message d st) = ingested st t b ca cb f g) \/
   (exists e, snd (on_message d st) = discarded st e)).
Proof.
  destruct (on_message_cases d st)
    as [(v & a & b & f & g & ca & cb & t & _ & _ & _ & _ & Hd & Hr & H) | (e & H)];
    rewrite H; (split; [reflexivity |]).
  - left. exists t, b, ca, cb, f, g. split; [exact Hd | split; [exact Hr | reflexivity]].
  - right. exists e. reflexivity.
Qed.

Lemma loop_forever_cons d ds st :
  loop_forever (d :: ds) st = loop_forever ds (snd (on_message d st)).
Proof.
  simpl. unfold bind. pose proof (on_message_returns d st) as H.
  destruct (on_message d st) as [r st1]. simpl in *. subst r. reflexivity.
Qed.

(** X8.  The subscriber only appends: after any deliveries the rows that
    were in the table are still there, in place and unchanged; at most one
    row per delivery has been added; and the log holds one "Ingested row"
    line per added row. *)
Theorem loop_forever_append_only ds : forall st t,
  disk st = Some t ->
  exists t' added,
    disk (snd (loop_forever ds st)) = Some t' /\
    rows t' = rows t ++ added /\
    (List.length added <= List.length ds)%nat /\
    ingested_lines (journal (snd (loop_forever ds st))) =
      (List.length added + ingested_lines (journal st))%nat.
Proof.
  induction ds as [| d ds IH]; intros st t Hd.
  - exists t, []. simpl. rewrite app_nil_r. repeat split; auto.
  - rewrite loop_forever_cons.
    destruct (on_message_effect d st)
      as [_ [(t0 & b & ca & cb & f & g & Hd0 & _ & H) | (e & H)]]; rewrite H.
    + rewrite Hd in Hd0. inversion Hd0; subst t0.
      destruct (IH (ingested st t b ca cb f g) (inserted t ca cb f g) eq_refl)
        as (t' & added & Hd' & Hrows & Hlen & Hlines).
      exists t', (mkRow (largest_rowid t + 1) ca cb (real_affinity f) (real_affinity g)
                    :: added).
      split; [exact Hd' |].
      split; [rewrite Hrows; unfold inserted; simpl; rewrite <- app_assoc; reflexivity |].
      split; [simpl; lia |].
      rewrite Hlines. simpl. lia.
    + destruct (IH (discarded st e) t Hd) as (t' & added & Hd' & Hrows & Hlen & Hlines).
      exists t', added.
      split; [exact Hd' |]. split; [exact Hrows |].
      split; [simpl; lia |].
      rewrite Hlines. reflexivity.
Qed.

Lemma loop_forever_well_formed ds : forall st,
  (forall t, disk st = Some t -> well_formed t) ->
  forall t', disk (snd (loop_forever ds st)) = Some t' -> well_formed t'.
Proof.
  induction ds as [| d ds IH]; intros st Hwf t' Ht'.
  - apply Hwf. exact Ht'.
  - rewrite loop_forever_cons in Ht'. apply (IH _) in Ht'; [exact Ht' |].
    destruct (on_message_effect d st)
      as [_ [(t0 & b & ca & cb & f & g & Hd0 & _ & H) | (e & H)]]; rewrite H; simpl.
    + intros t1 Ht1. inversion Ht1; subst.
      apply inserted_well_formed. apply Hwf. exact Hd0.
    + exact Hwf.
Qed.

(** X9.  Started on a file that is absent or well formed, [run_subscriber]
    leaves a well-formed table whatever it is sent and whatever the
    transport does: the rowids are pairwise distinct and grow along the
    insertion order. *)
Theorem run_subscriber_keeps_rowids_unique io connecting subscribing ds st t' :
  (forall t, disk st = Some t -> well_formed t) ->
  disk (snd (run_subscriber io connecting subscribing ds st)) = Some t' ->
  well_formed t' /\ NoDup (map id (rows t')).
Proof.
  intros Hwf Ht'.
  assert (H : well_formed t').
  { revert Ht'. unfold run_subscriber, bind, on_disk, lift.
    destruct (db_init io (disk st)) as [[v | e] db1] eqn:Hi; simpl.
    - assert (Hdb1 : forall t1, db1 = Some t1 -> well_formed t1).
      { intros t1 Ht1. eapply db_init_well_formed; [exact Hwf | exact Hi | exact Ht1]. }
      destruct connecting as [[] | e]; [| intros Ht1; apply Hdb1; exact Ht1].
      destruct subscribing as [[] | e]; [| intros Ht1; apply Hdb1; exact Ht1].
      apply loop_forever_well_formed. exact Hdb1.
    - intros Ht1. eapply db_init_well_formed; [exact Hwf | exact Hi | exact Ht1]. }
  split; [exact H |]. apply ascending_ids_NoDup. apply H.
Qed.

(** X10.  There is no deduplication: a message that is accepted and
    delivered twice gives two rows with the same four fields and
    consecutive rowids. *)
Theorem duplicate_delivery_stored_twice v a b f g ca cb t st :
  coercible v a b f g -> storable a b f g ca cb ->
  disk st = Some t -> largest_rowid t + 1 < max_rowid ->
  exists st' r1 r2 s',
    loop_forever [mkDelivery true (JsonText v); mkDelivery true (JsonText v)] st =
      (Return tt, st') /\
    disk st' = Some (mkTable (rows t ++ [r1; r2]) s') /\
    select_columns r1 = select_columns r2 /\
    id r2 = id r1 + 1.
Proof.
  intros Hc Hs Hd Hroom.
  exists (ingested (ingested st t b ca cb f g) (inserted t ca cb f g) b ca cb f g).
  exists (mkRow (largest_rowid t + 1) ca cb (real_affinity f) (real_affinity g)).
  exists (mkRow (largest_rowid (inserted t ca cb f g) + 1) ca cb
            (real_affinity f) (real_affinity g)).
  exists (largest_rowid (inserted t ca cb f g) + 1).
  split.
  - simpl. unfold bind.
    rewrite (on_message_accept v a b f g ca cb t st Hc Hs Hd) by lia.
    rewrite (on_message_accept v a b f g ca cb (inserted t ca cb f g)
               (ingested st t b ca cb f g) Hc Hs eq_refl)
      by (rewrite largest_rowid_inserted; lia).
    reflexivity.
  - split.
    + unfold ingested, inserted at 1. simpl. rewrite <- app_assoc. reflexivity.
    + split; [reflexivity |]. simpl. rewrite largest_rowid_inserted. reflexivity.
Qed.

(** X11.  While the storage cannot be opened, every message is lost,
    valid or not: [on_message] logs the exception, returns, and the file
    is as before; nothing is kept for a later retry. *)
Theorem on_message_store_unavailable p st :
  exists e,
    on_message (mkDelivery false p) st = (Return tt, discarded st e).
Proof.
  destruct (on_message_cases (mkDelivery false p) st)
    as [(v & a & b & f & g & ca & cb & t & _ & _ & _ & Hio & _) | (e & H)].
  - discriminate Hio.
  - exists e. exact H.
Qed.

(** X12.  A [ts] sent as an integer and a [sensor] sent as a boolean are
    not refused: the row holds the integer's decimal text and "1" or "0". *)
Theorem on_message_number_as_text v z s f g t st :
  coercible v (PInt z) (PBool s) f g ->
  in_int64 z = true -> is_nan f = false -> is_nan g = false ->
  disk st = Some t -> largest_rowid t < max_rowid ->
  on_message (mkDelivery true (JsonText v)) st =
    (Return tt,
     ingested st t (PBool s) (text_of_int z) (text_of_int (if s then 1 else 0)) f g).
Proof.
  intros Hc Hz Hf Hg Hd Hroom.
  apply (on_message_accept v (PInt z) (PBool s) f g); try assumption.
  split.
  - exists (SqlInteger z). simpl. rewrite Hz. split; reflexivity.
  - split; [| split; assumption].
    exists (SqlInteger (if s then 1 else 0)). split; reflexivity.
Qed.

(** ** The OPC UA server *)

Lemma poll_row e st a s t h rest :
  fst (db_latest (tick_io e) 1 (tick_db e)) = Return ((a, s, t, h) :: rest) ->
  poll e st = (Return tt, mkOpcua t h s (started st) (opcua_log st)).
Proof.
  intros H. unfold poll, bind, on_file. rewrite H. reflexivity.
Qed.

Lemma poll_no_row e st : read_empty e -> poll e st = (Return tt, st).
Proof.
  intros H. unfold poll, bind, on_file. rewrite H. reflexivity.
Qed.

Lemma poll_returns e st :
  read_returns e ->
  exists st',
    poll e st = (Return tt, st') /\
    started st' = started st /\ opcua_log st' = opcua_log st.
Proof.
  intros (l & H). destruct l as [| [[[a s] t] h] rest].
  - exists st. rewrite (poll_no_row e st H). repeat split.
  - eexists. rewrite (poll_row e st a s t h rest H). repeat split.
Qed.

Lemma while_True_reads pre : forall st,
  Forall read_returns pre ->
  exists st1,
    started st1 = started st /\ opcua_log st1 = opcua_log st /\
    forall rest, while_True (pre ++ rest) st = while_True rest st1.
Proof.
  induction pre as [| e pre IH]; intros st Hok.
  - exists st. repeat split.
  - inversion Hok as [| ? ? He Hpre]; subst.
    destruct (poll_returns e st He) as (st0 & Hp & Hs & Hl).
    destruct (IH st0 Hpre) as (st1 & Hs1 & Hl1 & Hrun).
    exists st1. split; [congruence |]. split; [congruence |].
    intros rest. simpl. unfold bind. rewrite Hp. apply Hrun.
Qed.

Lemma while_True_no_rows sch : forall st,
  Forall read_empty sch -> while_True sch st = (Raise KeyboardInterrupt, st).
Proof.
  induction sch as [| e sch IH]; intros st Hok; simpl.
  - reflexivity.
  - inversion Hok as [| ? ? He Hrest]; subst.
    unfold bind. rewrite (poll_no_row e st He). apply IH. exact Hrest.
Qed.

(** X13.  However the polling loop is left, by the operator's interrupt or
    by an exception, the server is stopped; an interrupt is the only way
    for [serve] to return. *)
Theorem serve_stops_server schedule st :
  exists r st',
    serve schedule st = (r, st') /\ started st' = false /\
    (r = Return tt \/ exists e, r = Raise e /\ is_Exception e = true).
Proof.
  destruct (while_True_raises schedule st) as (x & st1 & H).
  unfold serve, try_finally, try_except. rewrite H.
  destruct (is_KeyboardInterrupt x) eqn:Hx.
  - eexists _, _. split; [reflexivity |]. split; [reflexivity | left; reflexivity].
  - eexists _, _. split; [reflexivity |]. split; [reflexivity |].
    right. exists x. split; [reflexivity |]. destruct x; try reflexivity; discriminate Hx.
Qed.

(** X14.  When every pass can read the file, the run ends with the
    operator's interrupt and the three variables hold the newest row the
    last pass found; when no pass finds a row, they hold what they held
    at the start. *)
Theorem serve_final_values st :
  (forall pre e a s t h rest,
     Forall read_returns pre ->
     fst (db_latest (tick_io e) 1 (tick_db e)) = Return ((a, s, t, h) :: rest) ->
     serve (pre ++ [e]) st =
       (Return tt, mkOpcua t h s false (INFO_opcua_stopping :: opcua_log st))) /\
  (forall schedule,
     Forall read_empty schedule ->
     serve schedule st =
       (Return tt,
        mkOpcua (v_temp st) (v_hum st) (v_sensor st) false
          (INFO_opcua_stopping :: opcua_log st))).
Proof.
  split.
  - intros pre e a s t h rest Hpre He.
    destruct (while_True_reads pre st Hpre) as (st1 & Hs & Hl & Hrun).
    unfold serve, try_finally, try_except. rewrite Hrun. simpl. unfold bind.
    rewrite (poll_row e st1 a s t h rest He). simpl. rewrite Hl. reflexivity.
  - intros schedule Hok.
    unfold serve, try_finally, try_except.
    rewrite (while_True_no_rows schedule st Hok). reflexivity.
Qed.

(** X15.  From the transport to the live variables: once [on_message] has
    stored a message, a pass of the polling loop over the file it left
    writes that message's numbers and sensor into the three variables. *)
Theorem ingest_then_poll v a b f g ca cb t st live :
  coercible v a b f g -> storable a b f g ca cb ->
  disk st = Some t -> largest_rowid t < max_rowid ->
  exists st' t' h',
    on_message (mkDelivery true (JsonText v)) st = (Return tt, st') /\
    poll (mkTick true (disk st')) live =
      (Return tt, mkOpcua t' h' cb (started live) (opcua_log live)) /\
    float_eq t' f = true /\ float_eq h' g = true.
Proof.
  intros Hc Hs Hd Hroom.
  exists (ingested st t b ca cb f g), (real_affinity f), (real_affinity g).
  split; [apply (on_message_accept v a b f g); assumption |].
  split.
  - apply (poll_row _ live ca cb (real_affinity f) (real_affinity g) []).
    unfold ingested. cbn [tick_io tick_db disk].
    rewrite db_latest_1_inserted. reflexivity.
  - destruct Hs as (_ & _ & Hf & Hg). split; apply real_affinity_eq; assumption.
Qed.

(** ** The publisher *)

Lemma publish_reading_effect topic name c r st :
  broker_answer c = Return r ->
  publish_reading topic name c st =
    (Return tt,
     mkPublisher (pub_disk st) (client_id st) (network_loop st) (connected st)
       (publication_of topic name c :: outbox st)
       ((if publish_status r =? MQTT_ERR_SUCCESS
         then INFO_published (reading_mapping name c) topic
         else ERROR_publish_failed (publish_status r))
          :: publisher_log st)).
Proof.
  intros Hr.
  unfold publish_reading, bind, client_publish, log_publisher, publication_of.
  rewrite Hr. destruct (publish_status r =? MQTT_ERR_SUCCESS); reflexivity.
Qed.

Lemma publish_reading_frame topic name c st r st' :
  publish_reading topic name c st = (r, st') ->
  pub_disk st' = pub_disk st /\ client_id st' = client_id st /\
  network_loop st' = network_loop st /\ connected st' = connected st.
Proof.
  unfold publish_reading, bind, client_publish, log_publisher.
  destruct (broker_answer c) as [a | e].
  - destruct (publish_status a =? MQTT_ERR_SUCCESS); intros H; inversion H;
      repeat split.
  - intros H; inversion H; repeat split.
Qed.

Lemma publisher_while_True_effect topic name schedule : forall st,
  Forall publish_returns schedule ->
  exists st',
    publisher_while_True topic name (Return tt) schedule st =
      (Raise KeyboardInterrupt, st') /\
    pub_disk st' = pub_disk st /\ client_id st' = client_id st /\
    network_loop st' = network_loop st /\ connected st' = connected st /\
    outbox st' = rev (map (publication_of topic name) schedule) ++ outbox st /\
    failed_lines (publisher_log st') =
      (refused schedule + failed_lines (publisher_log st))%nat /\
    List.length (publisher_log st') =
      (List.length schedule + List.length (publisher_log st))%nat.
Proof.
  induction schedule as [| c rest IH]; intros st Hok.
  - exists st. repeat split.
  - inversion Hok as [| ? ? (r & Hr) Hrest]; subst.
    simpl. unfold bind. rewrite (publish_reading_effect topic name c r st Hr).
    unfold lift at 1.
    match goal with |- context [publisher_while_True topic name _ rest ?s] =>
      destruct (IH s Hrest) as (st' & Hrun & Hd & Hc & Hn & Hk & Ho & Hf & Hl) end.
    exists st'. simpl in *.
    split; [exact Hrun |]. split; [exact Hd |]. split; [exact Hc |].
    split; [exact Hn |]. split; [exact Hk |].
    split; [rewrite Ho, <- app_assoc; reflexivity |].
    rewrite Hr. split.
    + rewrite Hf. destruct (publish_status r =? MQTT_ERR_SUCCESS); simpl; lia.
    + rewrite Hl. simpl. lia.
Qed.

Lemma publisher_while_True_raises topic name napping schedule : forall st,
  exists x st', publisher_while_True topic name napping schedule st = (Raise x, st').
Proof.
  induction schedule as [| c rest IH]; intros st; simpl.
  - exists KeyboardInterrupt, st. reflexivity.
  - unfold bind. destruct (publish_reading topic name c st) as [[u | x] st1].
    + unfold lift at 1. destruct napping as [[] | x].
      * apply IH.
      * exists x, st1. reflexivity.
    + exists x, st1. reflexivity.
Qed.

(** X16.  A refused [publish] never ends the publisher.  In a run in
    which the connection is made, every [publish] call returns a result
    and [sleep] takes the interval, the publisher makes one [publish]
    call per pass, in order, each on the topic with quality of service 1
    and no retain flag, logs one "Publish failed" line per result other
    than success, and is left by the operator's interrupt, returning with
    the network loop stopped and the client disconnected; it writes no
    row: the file is as [db_init] left it.  Whatever [publish] and [sleep]
    do once the connection is made, the run ends with the network loop
    stopped and the client disconnected. *)
Theorem run_publisher_failures_not_fatal topic name schedule st :
  (Forall publish_returns schedule ->
   exists st',
     run_publisher true (Return tt) topic name (Return tt) schedule st =
       (Return tt, st') /\
     outbox st' = rev (map (publication_of topic name) schedule) ++ outbox st /\
     failed_lines (publisher_log st') =
       (refused schedule + failed_lines (publisher_log st))%nat /\
     network_loop st' = false /\ connected st' = false /\
     pub_disk st' = snd (db_init true (pub_disk st))) /\
  (forall napping,
   exists r st',
     run_publisher true (Return tt) topic name napping schedule st = (r, st') /\
     network_loop st' = false /\ connected st' = false).
Proof.
  split.
  - intros Hok. unfold run_publisher, bind, on_pub_disk.
    destruct (db_init true (pub_disk st)) as [r db1] eqn:Hi.
    assert (Hr : r = Return PNone).
    { destruct (pub_disk st); simpl in Hi; inversion Hi; reflexivity. }
    subst r. simpl.
    unfold try_finally, try_except, set_client_id, set_connected, set_network_loop,
      log_publisher. simpl.
    match goal with |- context [publisher_while_True topic name _ schedule ?s] =>
      destruct (publisher_while_True_effect topic name schedule s Hok)
        as (st1 & Hrun & Hd & Hc & Hn & Hk & Ho & Hf & Hl) end.
    rewrite Hrun. simpl in *.
    eexists. split; [reflexivity |]. simpl.
    split; [exact Ho |]. split; [exact Hf |].
    split; [reflexivity |]. split; [reflexivity | exact Hd].
  - intros napping. unfold run_publisher, bind, on_pub_disk.
    destruct (db_init true (pub_disk st)) as [r db1] eqn:Hi.
    assert (Hr : r = Return PNone).
    { destruct (pub_disk st); simpl in Hi; inversion Hi; reflexivity. }
    subst r. simpl.
    unfold try_finally, try_except, set_client_id, set_connected, set_network_loop,
      log_publisher. simpl.
    match goal with |- context [publisher_while_True topic name napping schedule ?s] =>
      destruct (publisher_while_True_raises topic name napping schedule s)
        as (x & st1 & Hrun) end.
    rewrite Hrun. destruct (is_KeyboardInterrupt x); simpl;
      eexists _, _; (split; [reflexivity | split; reflexivity]).
Qed.

(** X17.  What the publisher sends, the subscriber takes: the mapping of
    a reading whose timestamp and sensor name UTF-8 can encode and whose
    two draws are not NaN is stored by [on_message] with the publisher's
    timestamp and sensor name and with its two numbers. *)
Theorem published_reading_is_ingested name c t st :
  utf8_encodable (utcnow c) = true -> utf8_encodable name = true ->
  is_nan (drawn_temperature c) = false -> is_nan (drawn_humidity c) = false ->
  disk st = Some t -> largest_rowid t < max_rowid ->
  on_message (mkDelivery true (JsonText (reading_mapping name c))) st =
    (Return tt,
     mkSubscriber
       (Some (mkTable
                (rows t ++ [mkRow (largest_rowid t + 1) (utcnow c) name
                              (real_affinity (drawn_temperature c))
                              (real_affinity (drawn_humidity c))])
                (largest_rowid t + 1)))
       (INFO_ingested (PStr name) :: journal st)).
Proof.
  intros Hts Hname Hf Hg Hd Hroom.
  apply (on_message_accept _ (PStr (utcnow c)) (PStr name)
           (drawn_temperature c) (drawn_humidity c) (utcnow c) name t st);
    try assumption.
  - split; [reflexivity |]. split; [reflexivity |].
    split; eexists; split; reflexivity.
  - split; [exists (SqlText (utcnow c)); simpl; rewrite Hts; split; reflexivity |].
    split; [exists (SqlText name); simpl; rewrite Hname; split; reflexivity |].
    split; assumption.
Qed.

(** X18.  Failures at startup are not caught.  A [db_init] that fails
    ends [run_publisher], [run_subscriber] and [run_opcua_server] at once,
    the process state untouched: nothing is published, received or
    polled and no server is started.  A connection that fails ends
    [run_publisher] and [run_subscriber] with its exception once the
    table is there: nothing is published and no delivery is handled; so
    does a [subscribe] that fails.  When all three succeed the subscriber
    does not raise afterwards. *)
Theorem startup_failure_is_fatal :
  (forall connecting topic name napping schedule st,
     run_publisher false connecting topic name napping schedule st =
       (Raise sqlite3_Error, st)) /\
  (forall connecting subscribing ds st,
     run_subscriber false connecting subscribing ds st = (Raise sqlite3_Error, st)) /\
  (forall db schedule st,
     run_opcua_server false db schedule st = (Raise sqlite3_Error, st)) /\
  (forall e topic name napping schedule st,
     run_publisher true (Raise e) topic name napping schedule st =
       (Raise e,
        mkPublisher (snd (db_init true (pub_disk st))) (client_id st) (network_loop st)
          (connected st) (outbox st) (publisher_log st))) /\
  (forall e subscribing ds st,
     run_subscriber true (Raise e) subscribing ds st =
       (Raise e, mkSubscriber (snd (db_init true (disk st))) (journal st))) /\
  (forall e ds st,
     run_subscriber true (Return tt) (Raise e) ds st =
       (Raise e, mkSubscriber (snd (db_init true (disk st))) (journal st))) /\
  (forall ds st,
     fst (run_subscriber true (Return tt) (Return tt) ds st) = Return tt).
Proof.
  repeat split.
  - intros connecting topic name napping schedule [d i n c o l]. reflexivity.
  - intros connecting subscribing ds [d j]. reflexivity.
  - intros e topic name napping schedule [[t |] i n c o l]; reflexivity.
  - intros e subscribing ds [[t |] j]; reflexivity.
  - intros e ds [[t |] j]; reflexivity.
  - intros ds st. unfold run_subscriber, bind, on_disk, lift.
    destruct (db_init true (disk st)) as [r db1] eqn:Hi.
    assert (Hr : r = Return PNone).
    { destruct (disk st); simpl in Hi; inversion Hi; reflexivity. }
    subst r.
    destruct (loop_forever_total ds (mkSubscriber db1 (journal st))) as (st' & H & _).
    rewrite H. reflexivity.
Qed.

(** ** The dashboard *)

Lemma last_n_length {A} k (l : list A) :
  List.length (last_n k l) = Nat.min k (List.length l).
Proof. unfold last_n. rewrite length_skipn. lia. Qed.

Lemma rev_map_rev {A B} (f : A -> B) l : rev (map f (rev l)) = map f l.
Proof. rewrite map_rev, rev_involutive. reflexivity. Qed.

(** X19.  For every value of the slider and a well-formed table, the
    dashboard's three lists are the timestamps, temperatures and
    humidities of the last [min(n, count)] rows in insertion order, oldest
    first; they have that common length; the raw rows are the same rows
    newest first; and the file is not changed. *)
Theorem run_dashboard_series t n :
  well_formed t -> slider_rows n = true ->
  exists view,
    run_dashboard true true n (Some t) = (Return view, Some t) /\
    series_ts view = map ts (last_n (Z.to_nat n) (rows t)) /\
    series_temperature view = map temperature (last_n (Z.to_nat n) (rows t)) /\
    series_humidity view = map humidity (last_n (Z.to_nat n) (rows t)) /\
    raw_rows view = rev (map select_columns (last_n (Z.to_nat n) (rows t))) /\
    List.length (series_ts view) = Nat.min (Z.to_nat n) (List.length (rows t)) /\
    List.length (series_temperature view) = List.length (series_ts view) /\
    List.length (series_humidity view) = List.length (series_ts view).
Proof.
  intros [Hasc _] Hn.
  unfold slider_rows in Hn. apply andb_true_iff in Hn. destruct Hn as [Hn _].
  apply andb_true_iff in Hn. destruct Hn as [Hlo Hhi].
  apply Z.leb_le in Hlo, Hhi.
  assert (Hn64 : in_int64 n = true).
  { unfold in_int64. apply andb_true_intro.
    split; apply Z.leb_le; unfold min_int64, max_rowid; lia. }
  unfold run_dashboard, bind. simpl.
  rewrite (db_latest_eq t n Hn64), (order_by_id_desc_ascending _ Hasc).
  unfold limit. destruct (n <? 0) eqn:E; [apply Z.ltb_lt in E; lia |].
  rewrite firstn_rev. fold (last_n (Z.to_nat n) (rows t)).
  set (w := last_n (Z.to_nat n) (rows t)).
  eexists. split; [reflexivity |]. simpl.
  rewrite !map_map, !rev_map_rev, map_rev.
  repeat split; try reflexivity.
  - rewrite length_map. apply last_n_length.
  - rewrite !length_map. reflexivity.
  - rewrite !length_map. reflexivity.
Qed.

(** X20.  The dashboard never changes an existing table.  On a file
    without the table it creates it and shows empty lists.  A storage
    failure in [db_init] or in [db_latest] is not caught: it leaves
    [run_dashboard]. *)
Theorem run_dashboard_edges n :
  (forall io_init io_read t,
     snd (run_dashboard io_init io_read n (Some t)) = Some t) /\
  (in_int64 n = true ->
   run_dashboard true true n None =
     (Return (mkDashboard [] [] [] []), Some (mkTable [] 0))) /\
  (forall io_read db,
     run_dashboard false io_read n db = (Raise sqlite3_Error, db)) /\
  (forall db,
     run_dashboard true false n db = (Raise sqlite3_Error, snd (db_init true db))).
Proof.
  split; [| split; [| split]].
  - intros io_init io_read t. unfold run_dashboard, bind.
    destruct io_init; simpl; [| reflexivity].
    pose proof (db_latest_unchanged io_read n (Some t)) as H.
    destruct (db_latest io_read n (Some t)) as [[l | e] db']; simpl in *; exact H.
  - intros Hn. unfold run_dashboard, bind. simpl.
    rewrite (db_latest_eq (mkTable [] 0) n Hn). simpl.
    unfold limit. destruct (n <? 0); [reflexivity | rewrite firstn_nil; reflexivity].
  - intros io_read db. reflexivity.
  - intros db. destruct db; reflexivity.
Qed.

(** ** The logger *)

Lemma mk_logger_configured name reg :
  logger_handlers (getLogger reg name) <> [] -> mk_logger name reg = reg.
Proof.
  unfold mk_logger.
  destruct (logger_handlers (getLogger reg name)); [contradiction | reflexivity].
Qed.

Lemma mk_logger_fresh name reg :
  logger_handlers (getLogger reg name) = [] ->
  getLogger (mk_logger name reg) name = mkLogger logging_INFO [stdout_handler].
Proof.
  intros H. unfold mk_logger. rewrite H. unfold getLogger, set_logger.
  rewrite String.eqb_refl. reflexivity.
Qed.

Lemma mk_logger_has_handler name reg :
  logger_handlers (getLogger (mk_logger name reg) name) <> [].
Proof.
  destruct (logger_handlers (getLogger reg name)) eqn:H.
  - rewrite (mk_logger_fresh name reg H). discriminate.
  - rewrite mk_logger_configured; rewrite H; discriminate.
Qed.

(** X21.  [mk_logger] can be called again and again: every call after the
    first changes nothing.  A logger that had no handler ends at level
    INFO with exactly one handler, the one that writes to stdout in the
    format of the module; a logger that already had handlers keeps them
    and its level.  No logger kept under another key is touched, and two
    names with the same key, as the empty name and "root", get the same
    logger. *)
Theorem mk_logger_idempotent name reg :
  (forall k, Nat.iter (S k) (mk_logger name) reg = mk_logger name reg) /\
  (logger_handlers (getLogger reg name) = [] ->
   getLogger (mk_logger name reg) name = mkLogger logging_INFO [stdout_handler]) /\
  (logger_handlers (getLogger reg name) <> [] -> mk_logger name reg = reg) /\
  (forall other, logger_key other <> logger_key name ->
     getLogger (mk_logger name reg) other = getLogger reg other) /\
  (forall other, logger_key other = logger_key name ->
     getLogger (mk_logger name reg) other = getLogger (mk_logger name reg) name).
Proof.
  split; [| split; [| split; [| split]]].
  - induction k as [| k IH]; [reflexivity |].
    change (Nat.iter (S (S k)) (mk_logger name) reg)
      with (mk_logger name (Nat.iter (S k) (mk_logger name) reg)).
    rewrite IH. apply mk_logger_configured. apply mk_logger_has_handler.
  - apply mk_logger_fresh.
  - apply mk_logger_configured.
  - intros other Hne. unfold mk_logger.
    destruct (logger_handlers (getLogger reg name)); [| reflexivity].
    unfold getLogger, set_logger. apply String.eqb_neq in Hne. rewrite Hne. reflexivity.
  - intros other Heq. unfold getLogger. rewrite Heq. reflexivity.
Qed.

End Host.

(** * The claims on the specification's scenarios *)

(** The scenario message is stored and read back. *)
Lemma on_message_then_latest_witness :
  exists st' f' g',
    on_message float_of_short_decimal text_of_special_real
      (mkDelivery true (JsonText (scenario_payload (PFloat float_24_5) (PInt 55))))
      fresh_subscriber = (Return tt, st') /\
    db_latest true 1 (disk st') =
      (Return [("2024-01-01T00:00:00", "sensor-001", f', g')], disk st') /\
    float_eq f' float_24_5 = true /\ float_eq g' float_55 = true.
Proof.
  apply (on_message_then_latest float_of_short_decimal text_of_special_real
           (scenario_payload (PFloat float_24_5) (PInt 55))
           "2024-01-01T00:00:00" "sensor-001" float_24_5 float_55
           fresh_table fresh_subscriber).
  - split; [reflexivity |]. split; [reflexivity |].
    split; [exists (PFloat float_24_5) | exists (PInt 55)]; split; reflexivity.
  - reflexivity.
  - reflexivity.
  - reflexivity.
  - reflexivity.
  - reflexivity.
  - reflexivity.
Defined.

(** C1 fails as stated: a payload with the four keys whose temperature is
    the float NaN is coercible, the file can be written, and yet
    [db_latest(1)] after [on_message] yields no record. *)
Lemma nan_temperature_not_stored :
  coercible float_of_short_decimal (scenario_payload (PFloat S754_nan) (PFloat float_55))
    (PStr "2024-01-01T00:00:00") (PStr "sensor-001") S754_nan float_55 /\
  writable (disk fresh_subscriber) /\
  on_message float_of_short_decimal text_of_special_real
    (mkDelivery true (JsonText (scenario_payload (PFloat S754_nan) (PFloat float_55))))
    fresh_subscriber = (Return tt, discarded fresh_subscriber sqlite3_Error) /\
  db_latest true 1 (disk (discarded fresh_subscriber sqlite3_Error)) =
    (Return [], Some fresh_table).
Proof.
  split.
  { split; [reflexivity |]. split; [reflexivity |].
    split; [exists (PFloat S754_nan) | exists (PFloat float_55)]; split; reflexivity. }
  split.
  { exists fresh_table. split; reflexivity. }
  split; reflexivity.
Qed.

(** Two appends on the fresh table: rowids 1 and 2, and [db_latest(2)]
    returns the second reading, then the first. *)
Lemma appends_monotonic_witness :
  exists t' news tuples,
    Some (mkTable [mkRow 1 "a" "s" float_24_5 float_55;
                   mkRow 2 "b" "s" float_1 float_55] 2) = Some t' /\
    rows t' = rows fresh_table ++ news /\
    Forall2 (stored_as text_of_special_real)
      [mkReading true (PStr "a") (PStr "s") float_24_5 float_55;
       mkReading true (PStr "b") (PStr "s") float_1 float_55] news /\
    ascending_ids news /\
    Forall (fun r => Forall (fun old => id old < id r) (rows fresh_table)) news /\
    Forall2 (returned_for text_of_special_real)
      [mkReading true (PStr "a") (PStr "s") float_24_5 float_55;
       mkReading true (PStr "b") (PStr "s") float_1 float_55] tuples /\
    db_latest true 2
      (Some (mkTable [mkRow 1 "a" "s" float_24_5 float_55;
                      mkRow 2 "b" "s" float_1 float_55] 2)) =
      (Return (rev tuples),
       Some (mkTable [mkRow 1 "a" "s" float_24_5 float_55;
                      mkRow 2 "b" "s" float_1 float_55] 2)).
Proof.
  apply (appends_monotonic text_of_special_real
           [mkReading true (PStr "a") (PStr "s") float_24_5 float_55;
            mkReading true (PStr "b") (PStr "s") float_1 float_55]
           fresh_table).
  - split; [constructor | simpl; lia].
  - reflexivity.
Defined.

(** [db_latest] on the empty, and on the two-row table. *)
Lemma db_latest_newest_first_witness :
  db_latest true 5 (Some fresh_table) = (Return [], Some fresh_table) /\
  (db_latest true 5 (Some two_row_table) =
     (Return (rev (map fields (rows two_row_table))), Some two_row_table) /\
   List.length (rev (map fields (rows two_row_table))) =
     List.length (rows two_row_table)) /\
  (db_latest true 1 (Some two_row_table) =
     (Return (firstn (Z.to_nat 1) (rev (map fields (rows two_row_table)))),
      Some two_row_table) /\
   List.length (firstn (Z.to_nat 1) (rev (map fields (rows two_row_table)))) =
     Nat.min (Z.to_nat 1) (List.length (rows two_row_table))).
Proof.
  assert (Hwf : well_formed two_row_table).
  { split; [| simpl; lia].
    repeat constructor; simpl; lia. }
  destruct db_latest_newest_first as (H1 & H2 & H3).
  split; [apply H1; reflexivity |].
  split; [apply H2; [exact Hwf | reflexivity | simpl; lia] |].
  apply H3; [exact Hwf | reflexivity | lia].
Defined.

(** C3 fails as stated, which is for every [n]: [db_latest(-1)] on a table
    of two rows returns both records, not up to -1 of them; and
    [db_latest(2**63)] on an empty table raises [OverflowError] instead of
    returning the empty list. *)
Lemma db_latest_outside_its_range :
  db_latest true (-1) (Some two_row_table) =
    (Return [("2024-01-01T00:00:02", "sensor-001", float_1, float_55);
             ("2024-01-01T00:00:00", "sensor-001", float_24_5, float_55)],
     Some two_row_table) /\
  db_latest true 9223372036854775808 (Some fresh_table) =
    (Raise OverflowError, Some fresh_table).
Proof. split; reflexivity. Qed.

(** The specification's malformed payload [{"sensor": "x"}]. *)
Lemma on_message_malformed_discarded_witness :
  exists e,
    on_message float_of_short_decimal text_of_special_real (mkDelivery true (JsonText sensor_only_payload)) fresh_subscriber =
      (Return tt, discarded fresh_subscriber e) /\
    disk (discarded fresh_subscriber e) = disk fresh_subscriber /\
    record_count
      (disk (snd (on_message float_of_short_decimal text_of_special_real (mkDelivery true (JsonText sensor_only_payload))
                    fresh_subscriber))) =
      record_count (disk fresh_subscriber).
Proof.
  apply (on_message_malformed_discarded float_of_short_decimal text_of_special_real
           (mkDelivery true (JsonText sensor_only_payload)) fresh_subscriber).
  right. exists sensor_only_payload. split; [reflexivity |].
  left. exists (KeyError "ts"). reflexivity.
Defined.

(** A delivery during a storage failure, and a poll during one. *)
Lemma loops_error_propagation_witness :
  (exists st',
      loop_forever float_of_short_decimal text_of_special_real
        [mkDelivery false (JsonText (scenario_payload (PFloat float_24_5) (PInt 55)));
         mkDelivery true (JsonText (scenario_payload (PFloat float_24_5) (PInt 55)))]
        fresh_subscriber = (Return tt, st') /\
      List.length (journal st') = (2 + List.length (journal fresh_subscriber))%nat) /\
  (exists y st',
      serve float_of_short_decimal ([] ++ mkTick false (Some one_row_table) :: [mkTick true (Some one_row_table)])
        serving_initial = (Raise y, st') /\
      is_Exception y = true /\ started st' = false /\
      serve float_of_short_decimal ([] ++ [mkTick false (Some one_row_table)]) serving_initial = (Raise y, st')).
Proof.
  destruct (loops_error_propagation float_of_short_decimal text_of_special_real) as [H1 H2].
  split.
  - apply H1.
  - apply (H2 [] (mkTick false (Some one_row_table)) [mkTick true (Some one_row_table)]
              serving_initial sqlite3_Error (Some one_row_table)).
    reflexivity.
Defined.

(** C5 fails as stated for the OPC UA server: the first pass cannot read
    the file, the exception leaves [serve], and the second pass, which
    would have written 24.5 into [Temperature], never runs. *)
Lemma opcua_read_failure_leaves_loop :
  serve float_of_short_decimal [mkTick false (Some one_row_table); mkTick true (Some one_row_table)]
    serving_initial =
    (Raise sqlite3_Error,
     mkOpcua (S754_zero false) (S754_zero false) "sensor-001" false [INFO_opcua_started]) /\
  serve float_of_short_decimal [mkTick true (Some one_row_table)] serving_initial =
    (Return tt,
     mkOpcua float_24_5 float_55 "sensor-001" false
       [INFO_opcua_stopping; INFO_opcua_started]).
Proof. split; reflexivity. Qed.

(** The scenario append, and an append during a storage failure. *)
Lemma db_insert_persists_returns_None_witness :
  (PNone = PNone /\
   exists t ca cb,
     Some fresh_table = Some t /\
     storable text_of_special_real (PStr "2024-01-01T00:00:00") (PStr "sensor-001")
       float_24_5 float_55 ca cb /\
     (forall s, PStr "2024-01-01T00:00:00" = PStr s -> ca = s) /\
     (forall s, PStr "sensor-001" = PStr s -> cb = s) /\
     Some one_row_table =
       Some (mkTable
               (rows t ++ [mkRow (largest_rowid t + 1) ca cb
                             (real_affinity float_24_5) (real_affinity float_55)])
               (largest_rowid t + 1)) /\
     float_eq (real_affinity float_24_5) float_24_5 = true /\
     float_eq (real_affinity float_55) float_55 = true /\
     db_latest true 1 (Some one_row_table) =
       (Return [(ca, cb, real_affinity float_24_5, real_affinity float_55)],
        Some one_row_table)) /\
  db_insert text_of_special_real false (PStr "2024-01-01T00:00:00") (PStr "sensor-001")
    float_24_5 float_55 (Some fresh_table) = (Raise sqlite3_Error, Some fresh_table).
Proof.
  split.
  - apply (proj1 (db_insert_persists_returns_None text_of_special_real true
                    (PStr "2024-01-01T00:00:00") (PStr "sensor-001")
                    float_24_5 float_55 (Some fresh_table))).
    reflexivity.
  - apply (proj2 (proj2 (db_insert_persists_returns_None text_of_special_real false
                           (PStr "2024-01-01T00:00:00") (PStr "sensor-001")
                           float_24_5 float_55 (Some fresh_table)))).
    reflexivity.
Defined.

(** C6 fails as stated: the scenario append succeeds, the row gets rowid
    1, and the value returned to the caller is [None], not the rowid. *)
Lemma db_insert_returns_None_not_rowid :
  db_insert text_of_special_real true (PStr "2024-01-01T00:00:00") (PStr "sensor-001")
    float_24_5 float_55 (Some fresh_table) = (Return PNone, Some one_row_table) /\
  map id (rows one_row_table) = [1] /\
  PNone <> PInt 1.
Proof. split; [reflexivity | split; [reflexivity | discriminate]]. Qed.

(** A payload without the keys is discarded; one whose temperature is the
    string "24.5" is stored. *)
Lemma on_message_uncoercible_discarded_witness :
  (exists e,
      on_message float_of_short_decimal text_of_special_real
        (mkDelivery true (JsonText sensor_only_payload)) fresh_subscriber =
        (Return tt, discarded fresh_subscriber e)) /\
  (exists t a b f g ca cb,
      disk fresh_subscriber = Some t /\
      coercible float_of_short_decimal (scenario_payload (PStr "24.5") (PInt 55))
        a b f g /\
      storable text_of_special_real a b f g ca cb /\
      on_message float_of_short_decimal text_of_special_real
        (mkDelivery true (JsonText (scenario_payload (PStr "24.5") (PInt 55))))
        fresh_subscriber =
        (Return tt,
         mkSubscriber
           (Some (mkTable
                    (rows t ++ [mkRow (largest_rowid t + 1) ca cb
                                  (real_affinity f) (real_affinity g)])
                    (largest_rowid t + 1)))
           (INFO_ingested b :: journal fresh_subscriber))).
Proof.
  split.
  - apply (proj1 (on_message_uncoercible_discarded float_of_short_decimal
                    text_of_special_real true sensor_only_payload fresh_subscriber)).
    left. exists (KeyError "ts"). reflexivity.
  - apply (proj2 (on_message_uncoercible_discarded float_of_short_decimal
                    text_of_special_real true
                    (scenario_payload (PStr "24.5") (PInt 55)) fresh_subscriber)).
    + intros [(e & He) | [(e & He) | [(e & He) | [(e & He) | [Hu | [Hu | [Hu | Hu]]]]]]];
        try discriminate He.
      * destruct Hu as (x & Hx & [(e & He) | He]); inversion Hx; subst;
          vm_compute in He; discriminate He.
      * destruct Hu as (x & Hx & [(e & He) | He]); inversion Hx; subst;
          vm_compute in He; discriminate He.
      * destruct Hu as (x & Hx & [(e & He) | He]); inversion Hx; subst;
          vm_compute in He; discriminate He.
      * destruct Hu as (x & Hx & [(e & He) | He]); inversion Hx; subst;
          vm_compute in He; discriminate He.
    + reflexivity.
    + exists fresh_table. split; reflexivity.
Defined.

(** C7 fails as stated: the temperature is carried as the string "24.5"
    instead of a number, and the message is not discarded: a row with
    temperature 24.5 is appended. *)
Lemma string_temperature_appended :
  on_message float_of_short_decimal text_of_special_real
    (mkDelivery true (JsonText (scenario_payload (PStr "24.5") (PFloat float_55))))
    fresh_subscriber =
    (Return tt, mkSubscriber (Some one_row_table) [INFO_ingested (PStr "sensor-001")]) /\
  record_count (Some one_row_table) = 1%nat /\
  record_count (disk fresh_subscriber) = 0%nat.
Proof. split; [reflexivity | split; reflexivity]. Qed.

(** A poll of the empty table, and one of the table with the scenario row. *)
Lemma poll_mirrors_latest_witness :
  poll float_of_short_decimal (mkTick true (Some fresh_table)) serving_initial = (Return tt, serving_initial) /\
  poll float_of_short_decimal (mkTick true (Some one_row_table)) serving_initial =
    (Return tt,
     mkOpcua float_24_5 float_55 "sensor-001" (started serving_initial)
       (opcua_log serving_initial)).
Proof.
  split.
  - apply (proj1 (poll_mirrors_latest float_of_short_decimal (mkTick true (Some fresh_table)) serving_initial)
             (Some fresh_table)).
    reflexivity.
  - apply (proj2 (poll_mirrors_latest float_of_short_decimal (mkTick true (Some one_row_table)) serving_initial)
             (Some one_row_table) "2024-01-01T00:00:00" "sensor-001"
             float_24_5 float_55 []).
    reflexivity.
Defined.

(** The scenario payload with a [unit] key. *)
Lemma on_message_ignores_extra_keys_witness :
  on_message float_of_short_decimal text_of_special_real
    (mkDelivery true (JsonText (payload_with_unit (PFloat float_24_5) (PInt 55))))
    fresh_subscriber =
  on_message float_of_short_decimal text_of_special_real
    (mkDelivery true (JsonText (scenario_payload (PFloat float_24_5) (PInt 55))))
    fresh_subscriber /\
  exists r st',
    on_message float_of_short_decimal text_of_special_real
      (mkDelivery true (JsonText (payload_with_unit (PFloat float_24_5) (PInt 55))))
      fresh_subscriber = (Return tt, st') /\
    disk st' = Some (mkTable (rows fresh_table ++ [r]) (id r)) /\
    select_columns r =
      ("2024-01-01T00:00:00", "sensor-001",
       real_affinity float_24_5, real_affinity float_55) /\
    record_count (disk st') = S (record_count (disk fresh_subscriber)).
Proof.
  destruct (on_message_ignores_extra_keys float_of_short_decimal text_of_special_real true
              [("unit", PStr "C"); ("ts", PStr "2024-01-01T00:00:00");
               ("sensor", PStr "sensor-001"); ("temperature", PFloat float_24_5);
               ("humidity", PInt 55)]
              (PStr "2024-01-01T00:00:00") (PStr "sensor-001")
              (PFloat float_24_5) (PInt 55) fresh_subscriber
              eq_refl eq_refl eq_refl eq_refl) as [H1 H2].
  split; [exact H1 |].
  apply (H2 float_24_5 float_55 "2024-01-01T00:00:00" "sensor-001" fresh_table).
  - reflexivity.
  - reflexivity.
  - split; [exists (SqlText "2024-01-01T00:00:00"); split; reflexivity |].
    split; [exists (SqlText "sensor-001"); split; reflexivity |].
    split; reflexivity.
  - reflexivity.
  - reflexivity.
  - reflexivity.
Defined.

(** C10 fails as stated: the mapping holds the four keys with values that
    [float] coerces, and one more key, the file can be written, and no
    record is appended, because the coerced humidity is NaN. *)
Lemma extra_key_nan_not_appended :
  coercible float_of_short_decimal (payload_with_unit (PFloat float_24_5) (PFloat S754_nan))
    (PStr "2024-01-01T00:00:00") (PStr "sensor-001") float_24_5 S754_nan /\
  writable (disk fresh_subscriber) /\
  on_message float_of_short_decimal text_of_special_real
    (mkDelivery true (JsonText (payload_with_unit (PFloat float_24_5) (PFloat S754_nan))))
    fresh_subscriber = (Return tt, discarded fresh_subscriber sqlite3_Error) /\
  record_count (disk (discarded fresh_subscriber sqlite3_Error)) = 0%nat.
Proof.
  split.
  { split; [reflexivity |]. split; [reflexivity |].
    split; [exists (PFloat float_24_5) | exists (PFloat S754_nan)]; split; reflexivity. }
  split.
  { exists fresh_table. split; reflexivity. }
  split; reflexivity.
Qed.

(** * The further properties on the scenarios *)

Lemma scenario_storable :
  storable text_of_special_real (PStr "2024-01-01T00:00:00") (PStr "sensor-001")
    float_24_5 float_55 "2024-01-01T00:00:00" "sensor-001".
Proof.
  split; [exists (SqlText "2024-01-01T00:00:00"); split; reflexivity |].
  split; [exists (SqlText "sensor-001"); split; reflexivity |].
  split; reflexivity.
Defined.

Lemma scenario_coercible :
  coercible float_of_short_decimal
    (scenario_payload (PFloat float_24_5) (PFloat float_55))
    (PStr "2024-01-01T00:00:00") (PStr "sensor-001") float_24_5 float_55.
Proof.
  split; [reflexivity |]. split; [reflexivity |].
  split; eexists; split; reflexivity.
Defined.

Lemma two_row_table_well_formed : well_formed two_row_table.
Proof.
  split; [| simpl; lia]. repeat constructor; simpl; lia.
Defined.

Lemma db_insert_returns_iff_witness :
  exists v db',
    db_insert text_of_special_real true (PStr "2024-01-01T00:00:00") (PStr "sensor-001")
      float_24_5 float_55 (Some fresh_table) = (Return v, db').
Proof.
  apply (proj2 (db_insert_returns_iff text_of_special_real true
                  (PStr "2024-01-01T00:00:00") (PStr "sensor-001")
                  float_24_5 float_55 (Some fresh_table))).
  split; [reflexivity |].
  split; [exists fresh_table; split; reflexivity |].
  exists "2024-01-01T00:00:00", "sensor-001". exact scenario_storable.
Defined.

Lemma db_insert_nan_rejected_witness :
  exists e,
    db_insert text_of_special_real true (PStr "2024-01-01T00:00:00") (PStr "sensor-001")
      S754_nan float_55 (Some fresh_table) = (Raise e, Some fresh_table).
Proof.
  apply (db_insert_nan_rejected text_of_special_real true
           (PStr "2024-01-01T00:00:00") (PStr "sensor-001")
           S754_nan float_55 (Some fresh_table)).
  reflexivity.
Defined.

Lemma db_latest_outside_counts_witness :
  (db_latest true (-1) (Some two_row_table) =
     (Return (rev (map fields (rows two_row_table))), Some two_row_table) /\
   List.length (rev (map fields (rows two_row_table))) =
     List.length (rows two_row_table)) /\
  (db_latest true 9223372036854775808 (Some fresh_table) =
     (Raise OverflowError, Some fresh_table) /\
   db_latest true 9223372036854775808 None = (Raise sqlite3_Error, None) /\
   db_latest false 9223372036854775808 (Some fresh_table) =
     (Raise sqlite3_Error, Some fresh_table)).
Proof.
  split.
  - apply (proj1 (db_latest_outside_counts two_row_table (-1)));
      [lia | reflexivity | exact two_row_table_well_formed].
  - apply (proj2 (db_latest_outside_counts fresh_table 9223372036854775808)).
    reflexivity.
Defined.

Lemma db_latest_prefix_witness :
  exists shorter rest,
    db_latest true 1 (Some two_row_table) = (Return shorter, Some two_row_table) /\
    db_latest true 2 (Some two_row_table) = (Return (shorter ++ rest), Some two_row_table) /\
    List.length shorter = Nat.min (Z.to_nat 1) (List.length (rows two_row_table)).
Proof.
  apply (db_latest_prefix two_row_table 1 2); [lia | lia | reflexivity].
Defined.

Lemma db_latest_after_insert_witness :
  exists db' older,
    db_insert text_of_special_real true (PStr "2024-01-01T00:00:00") (PStr "sensor-001")
      float_24_5 float_55 (Some two_row_table) = (Return PNone, db') /\
    db_latest true 1 (Some two_row_table) = (Return older, Some two_row_table) /\
    db_latest true (1 + 1) db' =
      (Return (("2024-01-01T00:00:00", "sensor-001",
                real_affinity float_24_5, real_affinity float_55) :: older), db').
Proof.
  apply (db_latest_after_insert text_of_special_real two_row_table
           (PStr "2024-01-01T00:00:00") (PStr "sensor-001") float_24_5 float_55
           "2024-01-01T00:00:00" "sensor-001" 1);
    [exact scenario_storable | reflexivity | lia | reflexivity].
Defined.

Lemma first_insert_needs_db_init_witness :
  db_insert text_of_special_real true (PStr "2024-01-01T00:00:00") (PStr "sensor-001")
    float_24_5 float_55 None = (Raise sqlite3_Error, None) /\
  (_ <- db_init true ;;
   db_insert text_of_special_real true (PStr "2024-01-01T00:00:00") (PStr "sensor-001")
     float_24_5 float_55) None =
    (Return PNone,
     Some (mkTable
             [mkRow 1 "2024-01-01T00:00:00" "sensor-001"
                (real_affinity float_24_5) (real_affinity float_55)] 1)).
Proof.
  apply (first_insert_needs_db_init text_of_special_real
           (PStr "2024-01-01T00:00:00") (PStr "sensor-001") float_24_5 float_55
           "2024-01-01T00:00:00" "sensor-001").
  exact scenario_storable.
Defined.

Lemma loop_forever_append_only_witness :
  exists t' added,
    disk (snd (loop_forever float_of_short_decimal text_of_special_real
                 [malformed_delivery; scenario_delivery] fresh_subscriber)) = Some t' /\
    rows t' = rows fresh_table ++ added /\
    (List.length added <= List.length [malformed_delivery; scenario_delivery])%nat /\
    ingested_lines
      (journal (snd (loop_forever float_of_short_decimal text_of_special_real
                       [malformed_delivery; scenario_delivery] fresh_subscriber))) =
      (List.length added + ingested_lines (journal fresh_subscriber))%nat.
Proof.
  apply (loop_forever_append_only float_of_short_decimal text_of_special_real
           [malformed_delivery; scenario_delivery] fresh_subscriber fresh_table).
  reflexivity.
Defined.

Lemma run_subscriber_keeps_rowids_unique_witness :
  well_formed one_row_table /\ NoDup (map id (rows one_row_table)).
Proof.
  apply (run_subscriber_keeps_rowids_unique float_of_short_decimal text_of_special_real
           true (Return tt) (Return tt) [malformed_delivery; scenario_delivery]
           (mkSubscriber None []) one_row_table).
  - intros t H. discriminate H.
  - reflexivity.
Defined.

Lemma duplicate_delivery_stored_twice_witness :
  exists st' r1 r2 s',
    loop_forever float_of_short_decimal text_of_special_real
      [scenario_delivery; scenario_delivery] fresh_subscriber = (Return tt, st') /\
    disk st' = Some (mkTable (rows fresh_table ++ [r1; r2]) s') /\
    select_columns r1 = select_columns r2 /\
    id r2 = id r1 + 1.
Proof.
  apply (duplicate_delivery_stored_twice float_of_short_decimal text_of_special_real
           (scenario_payload (PFloat float_24_5) (PFloat float_55))
           (PStr "2024-01-01T00:00:00") (PStr "sensor-001") float_24_5 float_55
           "2024-01-01T00:00:00" "sensor-001" fresh_table fresh_subscriber);
    [exact scenario_coercible | exact scenario_storable | reflexivity | reflexivity].
Defined.

Lemma on_message_number_as_text_witness :
  on_message float_of_short_decimal text_of_special_real
    (mkDelivery true (JsonText mistyped_payload)) fresh_subscriber =
    (Return tt,
     ingested fresh_subscriber fresh_table (PBool true)
       (text_of_int 1704067200) (text_of_int 1) float_24_5 float_55).
Proof.
  apply (on_message_number_as_text float_of_short_decimal text_of_special_real
           mistyped_payload 1704067200 true float_24_5 float_55
           fresh_table fresh_subscriber).
  - split; [reflexivity |]. split; [reflexivity |].
    split; eexists; split; reflexivity.
  - reflexivity.
  - reflexivity.
  - reflexivity.
  - reflexivity.
  - reflexivity.
Defined.

Lemma serve_final_values_witness :
  serve float_of_short_decimal
    ([mkTick true (Some fresh_table)] ++ [mkTick true (Some one_row_table)])
    serving_initial =
    (Return tt,
     mkOpcua float_24_5 float_55 "sensor-001" false
       (INFO_opcua_stopping :: opcua_log serving_initial)) /\
  serve float_of_short_decimal [mkTick true (Some fresh_table)] serving_initial =
    (Return tt,
     mkOpcua (v_temp serving_initial) (v_hum serving_initial) (v_sensor serving_initial)
       false (INFO_opcua_stopping :: opcua_log serving_initial)).
Proof.
  destruct (serve_final_values float_of_short_decimal serving_initial) as [H1 H2].
  split.
  - apply (H1 [mkTick true (Some fresh_table)] (mkTick true (Some one_row_table))
              "2024-01-01T00:00:00" "sensor-001" float_24_5 float_55 []).
    + constructor; [exists []; reflexivity | constructor].
    + reflexivity.
  - apply H2. constructor; [reflexivity | constructor].
Defined.

Lemma ingest_then_poll_witness :
  exists st' t' h',
    on_message float_of_short_decimal text_of_special_real scenario_delivery
      fresh_subscriber = (Return tt, st') /\
    poll float_of_short_decimal (mkTick true (disk st')) serving_initial =
      (Return tt,
       mkOpcua t' h' "sensor-001" (started serving_initial) (opcua_log serving_initial)) /\
    float_eq t' float_24_5 = true /\ float_eq h' float_55 = true.
Proof.
  apply (ingest_then_poll float_of_short_decimal text_of_special_real
           (scenario_payload (PFloat float_24_5) (PFloat float_55))
           (PStr "2024-01-01T00:00:00") (PStr "sensor-001") float_24_5 float_55
           "2024-01-01T00:00:00" "sensor-001" fresh_table fresh_subscriber
           serving_initial);
    [exact scenario_coercible | exact scenario_storable | reflexivity | reflexivity].
Defined.

Lemma published_reading_is_ingested_witness :
  on_message float_of_short_decimal text_of_special_real
    (mkDelivery true
       (JsonText (reading_mapping "sensor-001" (scenario_cadence (AsInfo 0 1)))))
    fresh_subscriber =
    (Return tt,
     mkSubscriber
       (Some (mkTable
                (rows fresh_table ++
                 [mkRow (largest_rowid fresh_table + 1)
                    (utcnow (scenario_cadence (AsInfo 0 1))) "sensor-001"
                    (real_affinity (drawn_temperature (scenario_cadence (AsInfo 0 1))))
                    (real_affinity (drawn_humidity (scenario_cadence (AsInfo 0 1))))])
                (largest_rowid fresh_table + 1)))
       (INFO_ingested (PStr "sensor-001") :: journal fresh_subscriber)).
Proof.
  apply (published_reading_is_ingested float_of_short_decimal text_of_special_real
           "sensor-001" (scenario_cadence (AsInfo 0 1)) fresh_table fresh_subscriber);
    reflexivity.
Defined.

(** Three passes, the second refused by the broker client. *)
Lemma run_publisher_failures_not_fatal_witness :
  exists st',
    run_publisher true (Return tt) "factory/line1/sensor/telemetry" "sensor-001"
      (Return tt)
      [scenario_cadence (AsInfo 0 1); scenario_cadence (AsTuple 4 2);
       scenario_cadence (AsInfo 0 3)]
      (mkPublisher None EmptyString false false [] []) = (Return tt, st') /\
    outbox st' =
      rev (map (publication_of "factory/line1/sensor/telemetry" "sensor-001")
             [scenario_cadence (AsInfo 0 1); scenario_cadence (AsTuple 4 2);
              scenario_cadence (AsInfo 0 3)]) ++ [] /\
    failed_lines (publisher_log st') = (1 + 0)%nat /\
    network_loop st' = false /\ connected st' = false /\
    pub_disk st' = Some fresh_table.
Proof.
  apply (proj1 (run_publisher_failures_not_fatal "factory/line1/sensor/telemetry"
                  "sensor-001"
                  [scenario_cadence (AsInfo 0 1); scenario_cadence (AsTuple 4 2);
                   scenario_cadence (AsInfo 0 3)]
                  (mkPublisher None EmptyString false false [] []))).
  repeat constructor; eexists; reflexivity.
Defined.

Lemma run_dashboard_series_witness :
  exists view,
    run_dashboard true true 50 (Some two_row_table) = (Return view, Some two_row_table) /\
    series_ts view = map ts (last_n (Z.to_nat 50) (rows two_row_table)) /\
    series_temperature view = map temperature (last_n (Z.to_nat 50) (rows two_row_table)) /\
    series_humidity view = map humidity (last_n (Z.to_nat 50) (rows two_row_table)) /\
    raw_rows view = rev (map select_columns (last_n (Z.to_nat 50) (rows two_row_table))) /\
    List.length (series_ts view) =
      Nat.min (Z.to_nat 50) (List.length (rows two_row_table)) /\
    List.length (series_temperature view) = List.length (series_ts view) /\
    List.length (series_humidity view) = List.length (series_ts view).
Proof.
  apply (run_dashboard_series two_row_table 50);
    [exact two_row_table_well_formed | reflexivity].
Defined.

Lemma run_dashboard_edges_witness :
  run_dashboard true true 50 None =
    (Return (mkDashboard [] [] [] []), Some (mkTable [] 0)).
Proof.
  apply (proj1 (proj2 (run_dashboard_edges 50))). reflexivity.
Defined.

Lemma mk_logger_idempotent_witness :
  getLogger (mk_logger "iiot" no_loggers) "iiot" = mkLogger logging_INFO [stdout_handler] /\
  mk_logger "iiot" (mk_logger "iiot" no_loggers) = mk_logger "iiot" no_loggers /\
  getLogger (mk_logger "iiot" no_loggers) "opcua" = getLogger no_loggers "opcua" /\
  getLogger (mk_logger "root" no_loggers) EmptyString =
    getLogger (mk_logger "root" no_loggers) "root".
Proof.
  split; [| split; [| split]].
  - apply (proj1 (proj2 (mk_logger_idempotent "iiot" no_loggers))). reflexivity.
  - apply (proj1 (proj2 (proj2 (mk_logger_idempotent "iiot" (mk_logger "iiot" no_loggers))))).
    simpl. discriminate.
  - apply (proj1 (proj2 (proj2 (proj2 (mk_logger_idempotent "iiot" no_loggers))))).
    intros H. discriminate H.
  - apply (proj2 (proj2 (proj2 (proj2 (mk_logger_idempotent "root" no_loggers))))).
    reflexivity.
Defined.
